(** * legal-practice-manager: the domain entity model of [app/models.py]

    [models.py] has no function bodies.  Every class is either a closed
    enumeration ([class X(str, Enum)]) or a list of field declarations
    ([class X(SQLModel, table=...)]) that the SQLModel base class
    interprets when a payload is validated into an instance.  The
    development below embeds

    - the ten enumerations as inductive types with their string tokens,
    - [Decimal] as a coefficient and an exponent,
    - every class as the list of its field declarations, written the way
      the source writes them (annotation and [Field(...)] arguments),
    - the interpretation of a declaration list against a payload
      ([validate]): presence, defaults, [Optional], [max_length],
      [decimal_places] and enumeration membership,
    - the table names, foreign keys and [Relationship] accessors of the
      persistent classes, and the first step of mapper configuration,
      which every instantiation of such a class runs ([model_validate]). *)

From Stdlib Require Import ZArith QArith String List Lia.
From stdpp Require Import base option gmap strings list fin_maps.

Local Open Scope string_scope.
Local Open Scope Z_scope.

(** ** Enumerations (models.py, lines 9-76) *)

Module UserRole.
Inductive t :=
  | FIRM_ADMIN | MANAGING_PARTNER | ATTORNEY | PARALEGAL | ACCOUNTING_STAFF
  | CLIENT | HR_REPRESENTATIVE | COMPANY_MANAGER | INDIVIDUAL_EMPLOYEE.
Definition value (m : t) : string :=
    match m with
    | FIRM_ADMIN => "firm_admin"
    | MANAGING_PARTNER => "managing_partner"
    | ATTORNEY => "attorney"
    | PARALEGAL => "paralegal"
    | ACCOUNTING_STAFF => "accounting_staff"
    | CLIENT => "client"
    | HR_REPRESENTATIVE => "hr_representative"
    | COMPANY_MANAGER => "company_manager"
    | INDIVIDUAL_EMPLOYEE => "individual_employee"
    end.
Definition members : list t :=
    [FIRM_ADMIN; MANAGING_PARTNER; ATTORNEY; PARALEGAL; ACCOUNTING_STAFF;
     CLIENT; HR_REPRESENTATIVE; COMPANY_MANAGER; INDIVIDUAL_EMPLOYEE].
End UserRole.

Module ClientType.
Inductive t := INDIVIDUAL | ORGANIZATION.
Definition value (m : t) : string :=
    match m with
    | INDIVIDUAL => "individual"
    | ORGANIZATION => "organization"
    end.
Definition members : list t := [INDIVIDUAL; ORGANIZATION].
End ClientType.

Module CaseStatus.
Inductive t := PENDING | ACTIVE | COMPLETED | STOPPED.
Definition value (m : t) : string :=
    match m with
    | PENDING => "pending"
    | ACTIVE => "active"
    | COMPLETED => "completed"
    | STOPPED => "stopped"
    end.
Definition members : list t := [PENDING; ACTIVE; COMPLETED; STOPPED].
End CaseStatus.

Module ActivityBillableStatus.
Inductive t := NON_BILLABLE | BILLABLE | BILLED.
Definition value (m : t) : string :=
    match m with
    | NON_BILLABLE => "non_billable"
    | BILLABLE => "billable"
    | BILLED => "billed"
    end.
Definition members : list t := [NON_BILLABLE; BILLABLE; BILLED].
End ActivityBillableStatus.

Module ActivityStatus.
Inductive t := PENDING | IN_PROGRESS | COMPLETED | CANCELLED.
Definition value (m : t) : string :=
    match m with
    | PENDING => "pending"
    | IN_PROGRESS => "in_progress"
    | COMPLETED => "completed"
    | CANCELLED => "cancelled"
    end.
Definition members : list t := [PENDING; IN_PROGRESS; COMPLETED; CANCELLED].
End ActivityStatus.

Module BillingModel.
Inductive t := HOURLY | FLAT_FEE | CONTINGENCY | RETAINER.
Definition value (m : t) : string :=
    match m with
    | HOURLY => "hourly"
    | FLAT_FEE => "flat_fee"
    | CONTINGENCY => "contingency"
    | RETAINER => "retainer"
    end.
Definition members : list t := [HOURLY; FLAT_FEE; CONTINGENCY; RETAINER].
End BillingModel.

Module ExpenseType.
Inductive t := REIMBURSABLE | NON_REIMBURSABLE.
Definition value (m : t) : string :=
    match m with
    | REIMBURSABLE => "reimbursable"
    | NON_REIMBURSABLE => "non_reimbursable"
    end.
Definition members : list t := [REIMBURSABLE; NON_REIMBURSABLE].
End ExpenseType.

Module ResourceType.
Inductive t := ATTORNEY | PARALEGAL | ADMIN.
Definition value (m : t) : string :=
    match m with
    | ATTORNEY => "attorney"
    | PARALEGAL => "paralegal"
    | ADMIN => "admin"
    end.
Definition members : list t := [ATTORNEY; PARALEGAL; ADMIN].
End ResourceType.

Module TransactionType.
Inductive t := PAYMENT | REFUND | ADJUSTMENT | BILLING.
Definition value (m : t) : string :=
    match m with
    | PAYMENT => "payment"
    | REFUND => "refund"
    | ADJUSTMENT => "adjustment"
    | BILLING => "billing"
    end.
Definition members : list t := [PAYMENT; REFUND; ADJUSTMENT; BILLING].
End TransactionType.

Module AccountType.
Inductive t := ASSET | LIABILITY | EQUITY | REVENUE | EXPENSE.
Definition value (m : t) : string :=
    match m with
    | ASSET => "asset"
    | LIABILITY => "liability"
    | EQUITY => "equity"
    | REVENUE => "revenue"
    | EXPENSE => "expense"
    end.
Definition members : list t := [ASSET; LIABILITY; EQUITY; REVENUE; EXPENSE].
End AccountType.

(** The enumeration classes of the module, in declaration order. *)
Inductive EnumClass :=
| CUserRole | CClientType | CCaseStatus | CActivityBillableStatus
| CActivityStatus | CBillingModel | CExpenseType | CResourceType
| CTransactionType | CAccountType.

Definition enum_classes : list EnumClass :=
  [CUserRole; CClientType; CCaseStatus; CActivityBillableStatus;
   CActivityStatus; CBillingModel; CExpenseType; CResourceType;
   CTransactionType; CAccountType].

(** A member of one of the enumerations. *)
Inductive EnumVal :=
| EvUserRole (m : UserRole.t)
| EvClientType (m : ClientType.t)
| EvCaseStatus (m : CaseStatus.t)
| EvActivityBillableStatus (m : ActivityBillableStatus.t)
| EvActivityStatus (m : ActivityStatus.t)
| EvBillingModel (m : BillingModel.t)
| EvExpenseType (m : ExpenseType.t)
| EvResourceType (m : ResourceType.t)
| EvTransactionType (m : TransactionType.t)
| EvAccountType (m : AccountType.t).

Definition enum_class (v : EnumVal) : EnumClass :=
  match v with
  | EvUserRole _ => CUserRole
  | EvClientType _ => CClientType
  | EvCaseStatus _ => CCaseStatus
  | EvActivityBillableStatus _ => CActivityBillableStatus
  | EvActivityStatus _ => CActivityStatus
  | EvBillingModel _ => CBillingModel
  | EvExpenseType _ => CExpenseType
  | EvResourceType _ => CResourceType
  | EvTransactionType _ => CTransactionType
  | EvAccountType _ => CAccountType
  end.

(** [member.value]: the string token of a member. *)
Definition enum_value (v : EnumVal) : string :=
  match v with
  | EvUserRole m => UserRole.value m
  | EvClientType m => ClientType.value m
  | EvCaseStatus m => CaseStatus.value m
  | EvActivityBillableStatus m => ActivityBillableStatus.value m
  | EvActivityStatus m => ActivityStatus.value m
  | EvBillingModel m => BillingModel.value m
  | EvExpenseType m => ExpenseType.value m
  | EvResourceType m => ResourceType.value m
  | EvTransactionType m => TransactionType.value m
  | EvAccountType m => AccountType.value m
  end.

(** [list(cls)]: the members of a class, in declaration order. *)
Definition enum_members (c : EnumClass) : list EnumVal :=
  match c with
  | CUserRole => map EvUserRole UserRole.members
  | CClientType => map EvClientType ClientType.members
  | CCaseStatus => map EvCaseStatus CaseStatus.members
  | CActivityBillableStatus => map EvActivityBillableStatus ActivityBillableStatus.members
  | CActivityStatus => map EvActivityStatus ActivityStatus.members
  | CBillingModel => map EvBillingModel BillingModel.members
  | CExpenseType => map EvExpenseType ExpenseType.members
  | CResourceType => map EvResourceType ResourceType.members
  | CTransactionType => map EvTransactionType TransactionType.members
  | CAccountType => map EvAccountType AccountType.members
  end.

(** The declared value set of a class. *)
Definition enum_values (c : EnumClass) : list string :=
  map enum_value (enum_members c).

(** [cls(token)]: the member whose value is [token], if there is one. *)
Definition enum_lookup (c : EnumClass) (token : string) : option EnumVal :=
  find (fun m => String.eqb (enum_value m) token) (enum_members c).

(** ** Decimal

    [decimal.Decimal] keeps a coefficient and an exponent, so that
    [Decimal("100.00")] (10000, -2) and [Decimal("100.0")] (1000, -1) are
    different values with the same number.  The sign is folded into the
    coefficient. *)

Record Decimal := mkDecimal { coefficient : Z; exponent : Z }.


(** Digits after the decimal point, as [Field(decimal_places=...)] counts them. *)
Definition dec_places (d : Decimal) : nat := Z.to_nat (- exponent d).

(** The places that are left once the trailing zeros of the coefficient
    are dropped, as [Decimal.normalize] does: [Decimal("2.50")] has one,
    [Decimal("375.000")] and [Decimal("0.00")] have none. *)
Fixpoint strip_zeros (places : nat) (c : Z) : nat :=
  match places with
  | O => O
  | S k => if c mod 10 =? 0 then strip_zeros k (c / 10) else places
  end.

Definition normalized_places (d : Decimal) : nat :=
  strip_zeros (dec_places d) (coefficient d).

(** ** Values and payloads *)

(** A field value of an instance. *)
Inductive Value :=
| VNone
| VInt (z : Z)
| VStr (s : string)
| VBool (b : bool)
| VDecimal (d : Decimal)
| VDatetime (t : Z)
| VEnum (m : EnumVal).

(** A value of a raw external payload.  A category arrives as its string
    token, a decimal as its digits and exponent, a timestamp as UTC
    microseconds. *)
Inductive Raw :=
| RNull
| RInt (z : Z)
| RStr (s : string)
| RBool (b : bool)
| RDec (d : Decimal)
| RDatetime (t : Z).

(** ** Field declarations *)

Inductive FieldType :=
| TInt | TStr | TBool | TDecimal | TDatetime | TEnum (c : EnumClass).

(** The annotation of a field: [T] or [Optional[T]]. *)
Inductive Annotation :=
| Plain (ty : FieldType)
| Optional (ty : FieldType).

(** The keyword arguments of [Field(...)] that occur in models.py. *)
Inductive FieldArg :=
| default (v : Value)
| default_factory_utcnow
| primary_key
| unique
| foreign_key (target : string)
| max_length (n : nat)
| decimal_places (n : nat).

Record FieldInfo := Field {
  f_name : string;
  f_annotation : Annotation;
  f_args : list FieldArg }.

Definition f_type (f : FieldInfo) : FieldType :=
  match f_annotation f with Plain ty | Optional ty => ty end.

Definition f_nullable (f : FieldInfo) : bool :=
  match f_annotation f with Plain _ => false | Optional _ => true end.

Inductive FieldDefault :=
| NoDefault
| DefaultValue (v : Value)
| DefaultFactory.

Fixpoint args_default (args : list FieldArg) : FieldDefault :=
  match args with
  | [] => NoDefault
  | default v :: _ => DefaultValue v
  | default_factory_utcnow :: _ => DefaultFactory
  | _ :: rest => args_default rest
  end.

Fixpoint args_max_length (args : list FieldArg) : option nat :=
  match args with
  | [] => None
  | max_length n :: _ => Some n
  | _ :: rest => args_max_length rest
  end.

Fixpoint args_decimal_places (args : list FieldArg) : option nat :=
  match args with
  | [] => None
  | decimal_places n :: _ => Some n
  | _ :: rest => args_decimal_places rest
  end.

Definition args_primary_key (args : list FieldArg) : bool :=
  existsb (fun a => match a with primary_key => true | _ => false end) args.

Definition f_default (f : FieldInfo) : FieldDefault := args_default (f_args f).
Definition f_max_length (f : FieldInfo) : option nat := args_max_length (f_args f).
Definition f_decimal_places (f : FieldInfo) : option nat := args_decimal_places (f_args f).
Definition f_primary_key (f : FieldInfo) : bool := args_primary_key (f_args f).

(** A field is required when its declaration carries no default. *)
Definition f_required (f : FieldInfo) : bool :=
  match f_default f with NoDefault => true | _ => false end.

(** A class deriving from [SQLModel]: [table=True] for a persistent
    entity, [table=False] for a validation schema.  The [Relationship]
    attributes of the entities are navigation accessors, not fields, and
    are left out. *)
Record Model := mkModel {
  m_name : string;
  m_table : bool;
  m_fields : list FieldInfo }.

(** ** The classes of models.py

    Each list repeats the field declarations of its class in source order;
    [__tablename__] and the [Relationship] accessors carry no field. *)

(** [class User(SQLModel, table=True)], models.py line 80. *)
Definition User : Model := mkModel "User" true
  [ Field "id" (Optional TInt) [default VNone; primary_key];
    Field "email" (Plain TStr) [unique; max_length 255];
    Field "first_name" (Plain TStr) [max_length 100];
    Field "last_name" (Plain TStr) [max_length 100];
    Field "role" (Plain (TEnum CUserRole)) [];
    Field "is_active" (Plain TBool) [default (VBool true)];
    Field "phone" (Optional TStr) [default VNone; max_length 20];
    Field "hourly_rate" (Optional TDecimal) [default VNone; decimal_places 2];
    Field "created_at" (Plain TDatetime) [default_factory_utcnow];
    Field "updated_at" (Plain TDatetime) [default_factory_utcnow] ].

(** [class Client(SQLModel, table=True)], models.py line 102. *)
Definition Client : Model := mkModel "Client" true
  [ Field "id" (Optional TInt) [default VNone; primary_key];
    Field "client_type" (Plain (TEnum CClientType)) [];
    Field "first_name" (Optional TStr) [default VNone; max_length 100];
    Field "last_name" (Optional TStr) [default VNone; max_length 100];
    Field "date_of_birth" (Optional TDatetime) [default VNone];
    Field "organization_name" (Optional TStr) [default VNone; max_length 200];
    Field "tax_id" (Optional TStr) [default VNone; max_length 50];
    Field "email" (Optional TStr) [default VNone; max_length 255];
    Field "phone" (Optional TStr) [default VNone; max_length 20];
    Field "address_line1" (Optional TStr) [default VNone; max_length 255];
    Field "address_line2" (Optional TStr) [default VNone; max_length 255];
    Field "city" (Optional TStr) [default VNone; max_length 100];
    Field "state" (Optional TStr) [default VNone; max_length 50];
    Field "zip_code" (Optional TStr) [default VNone; max_length 20];
    Field "country" (Optional TStr) [default VNone; max_length 100];
    Field "is_active" (Plain TBool) [default (VBool true)];
    Field "created_at" (Plain TDatetime) [default_factory_utcnow];
    Field "updated_at" (Plain TDatetime) [default_factory_utcnow] ].

(** [class BeneficiaryRelationship(SQLModel, table=True)], models.py line 137. *)
Definition BeneficiaryRelationship : Model := mkModel "BeneficiaryRelationship" true
  [ Field "id" (Optional TInt) [default VNone; primary_key];
    Field "beneficiary_id" (Plain TInt) [foreign_key "clients.id"];
    Field "dependent_id" (Plain TInt) [foreign_key "clients.id"];
    Field "relationship_type" (Plain TStr) [max_length 50];
    Field "created_at" (Plain TDatetime) [default_factory_utcnow] ].

(** [class CaseType(SQLModel, table=True)], models.py line 152. *)
Definition CaseType : Model := mkModel "CaseType" true
  [ Field "id" (Optional TInt) [default VNone; primary_key];
    Field "name" (Plain TStr) [max_length 200];
    Field "description" (Optional TStr) [default VNone; max_length 1000];
    Field "default_billing_model" (Plain (TEnum CBillingModel)) [];
    Field "default_hourly_rate" (Optional TDecimal) [default VNone; decimal_places 2];
    Field "default_flat_fee" (Optional TDecimal) [default VNone; decimal_places 2];
    Field "is_active" (Plain TBool) [default (VBool true)];
    Field "created_at" (Plain TDatetime) [default_factory_utcnow] ].

(** [class Case(SQLModel, table=True)], models.py line 168. *)
Definition Case : Model := mkModel "Case" true
  [ Field "id" (Optional TInt) [default VNone; primary_key];
    Field "case_number" (Plain TStr) [unique; max_length 100];
    Field "title" (Plain TStr) [max_length 500];
    Field "description" (Optional TStr) [default VNone; max_length 2000];
    Field "status" (Plain (TEnum CCaseStatus)) [default (VEnum (EvCaseStatus CaseStatus.PENDING))];
    Field "client_id" (Plain TInt) [foreign_key "clients.id"];
    Field "case_type_id" (Plain TInt) [foreign_key "case_types.id"];
    Field "assigned_attorney_id" (Optional TInt) [default VNone; foreign_key "users.id"];
    Field "billing_model" (Plain (TEnum CBillingModel)) [];
    Field "hourly_rate" (Optional TDecimal) [default VNone; decimal_places 2];
    Field "flat_fee" (Optional TDecimal) [default VNone; decimal_places 2];
    Field "contingency_percentage" (Optional TDecimal) [default VNone; decimal_places 2];
    Field "retainer_amount" (Optional TDecimal) [default VNone; decimal_places 2];
    Field "opened_date" (Optional TDatetime) [default VNone];
    Field "closed_date" (Optional TDatetime) [default VNone];
    Field "created_at" (Plain TDatetime) [default_factory_utcnow];
    Field "updated_at" (Plain TDatetime) [default_factory_utcnow] ].

(** [class OpposingParty(SQLModel, table=True)], models.py line 205. *)
Definition OpposingParty : Model := mkModel "OpposingParty" true
  [ Field "id" (Optional TInt) [default VNone; primary_key];
    Field "case_id" (Plain TInt) [foreign_key "cases.id"];
    Field "party_type" (Plain (TEnum CClientType)) [];
    Field "first_name" (Optional TStr) [default VNone; max_length 100];
    Field "last_name" (Optional TStr) [default VNone; max_length 100];
    Field "organization_name" (Optional TStr) [default VNone; max_length 200];
    Field "email" (Optional TStr) [default VNone; max_length 255];
    Field "phone" (Optional TStr) [default VNone; max_length 20];
    Field "address_line1" (Optional TStr) [default VNone; max_length 255];
    Field "city" (Optional TStr) [default VNone; max_length 100];
    Field "state" (Optional TStr) [default VNone; max_length 50];
    Field "counsel_name" (Optional TStr) [default VNone; max_length 200];
    Field "counsel_firm" (Optional TStr) [default VNone; max_length 200];
    Field "counsel_email" (Optional TStr) [default VNone; max_length 255];
    Field "counsel_phone" (Optional TStr) [default VNone; max_length 20];
    Field "created_at" (Plain TDatetime) [default_factory_utcnow] ].

(** [class Jurisdiction(SQLModel, table=True)], models.py line 238. *)
Definition Jurisdiction : Model := mkModel "Jurisdiction" true
  [ Field "id" (Optional TInt) [default VNone; primary_key];
    Field "name" (Plain TStr) [max_length 200];
    Field "jurisdiction_type" (Plain TStr) [max_length 50];
    Field "description" (Optional TStr) [default VNone; max_length 500];
    Field "created_at" (Plain TDatetime) [default_factory_utcnow] ].

(** [class CaseJurisdiction(SQLModel, table=True)], models.py line 251. *)
Definition CaseJurisdiction : Model := mkModel "CaseJurisdiction" true
  [ Field "id" (Optional TInt) [default VNone; primary_key];
    Field "case_id" (Plain TInt) [foreign_key "cases.id"];
    Field "jurisdiction_id" (Plain TInt) [foreign_key "jurisdictions.id"];
    Field "is_primary" (Plain TBool) [default (VBool false)];
    Field "created_at" (Plain TDatetime) [default_factory_utcnow] ].

(** [class Document(SQLModel, table=True)], models.py line 265. *)
Definition Document : Model := mkModel "Document" true
  [ Field "id" (Optional TInt) [default VNone; primary_key];
    Field "case_id" (Plain TInt) [foreign_key "cases.id"];
    Field "title" (Plain TStr) [max_length 500];
    Field "description" (Optional TStr) [default VNone; max_length 1000];
    Field "file_path" (Plain TStr) [max_length 1000];
    Field "file_name" (Plain TStr) [max_length 255];
    Field "file_size" (Plain TInt) [];
    Field "mime_type" (Plain TStr) [max_length 100];
    Field "uploaded_by_id" (Plain TInt) [foreign_key "users.id"];
    Field "uploaded_at" (Plain TDatetime) [default_factory_utcnow] ].

(** [class Activity(SQLModel, table=True)], models.py line 284. *)
Definition Activity : Model := mkModel "Activity" true
  [ Field "id" (Optional TInt) [default VNone; primary_key];
    Field "case_id" (Plain TInt) [foreign_key "cases.id"];
    Field "assigned_user_id" (Optional TInt) [default VNone; foreign_key "users.id"];
    Field "title" (Plain TStr) [max_length 500];
    Field "description" (Optional TStr) [default VNone; max_length 2000];
    Field "activity_type" (Plain TStr) [max_length 100];
    Field "status" (Plain (TEnum CActivityStatus)) [default (VEnum (EvActivityStatus ActivityStatus.PENDING))];
    Field "billable_status" (Plain (TEnum CActivityBillableStatus)) [default (VEnum (EvActivityBillableStatus ActivityBillableStatus.NON_BILLABLE))];
    Field "due_date" (Optional TDatetime) [default VNone];
    Field "completed_date" (Optional TDatetime) [default VNone];
    Field "is_court_date" (Plain TBool) [default (VBool false)];
    Field "is_critical_deadline" (Plain TBool) [default (VBool false)];
    Field "created_at" (Plain TDatetime) [default_factory_utcnow];
    Field "updated_at" (Plain TDatetime) [default_factory_utcnow] ].

(** [class TimeEntry(SQLModel, table=True)], models.py line 313. *)
Definition TimeEntry : Model := mkModel "TimeEntry" true
  [ Field "id" (Optional TInt) [default VNone; primary_key];
    Field "activity_id" (Plain TInt) [foreign_key "activities.id"];
    Field "user_id" (Plain TInt) [foreign_key "users.id"];
    Field "hours" (Plain TDecimal) [decimal_places 1];
    Field "rate_per_hour" (Plain TDecimal) [decimal_places 2];
    Field "total_amount" (Plain TDecimal) [decimal_places 2];
    Field "description" (Plain TStr) [max_length 1000];
    Field "date" (Plain TDatetime) [];
    Field "billable_status" (Plain (TEnum CActivityBillableStatus)) [default (VEnum (EvActivityBillableStatus ActivityBillableStatus.BILLABLE))];
    Field "created_at" (Plain TDatetime) [default_factory_utcnow] ].

(** [class Expense(SQLModel, table=True)], models.py line 337. *)
Definition Expense : Model := mkModel "Expense" true
  [ Field "id" (Optional TInt) [default VNone; primary_key];
    Field "case_id" (Plain TInt) [foreign_key "cases.id"];
    Field "user_id" (Plain TInt) [foreign_key "users.id"];
    Field "description" (Plain TStr) [max_length 500];
    Field "expense_type" (Plain (TEnum CExpenseType)) [];
    Field "amount" (Plain TDecimal) [decimal_places 2];
    Field "markup_percentage" (Plain TDecimal) [default (VDecimal (mkDecimal 0 0)); decimal_places 2];
    Field "total_amount" (Plain TDecimal) [decimal_places 2];
    Field "expense_date" (Plain TDatetime) [];
    Field "category" (Plain TStr) [max_length 100];
    Field "vendor" (Optional TStr) [default VNone; max_length 200];
    Field "receipt_file_path" (Optional TStr) [default VNone; max_length 1000];
    Field "is_reimbursed" (Plain TBool) [default (VBool false)];
    Field "created_at" (Plain TDatetime) [default_factory_utcnow] ].

(** [class Invoice(SQLModel, table=True)], models.py line 365. *)
Definition Invoice : Model := mkModel "Invoice" true
  [ Field "id" (Optional TInt) [default VNone; primary_key];
    Field "case_id" (Plain TInt) [foreign_key "cases.id"];
    Field "invoice_number" (Plain TStr) [unique; max_length 100];
    Field "invoice_date" (Plain TDatetime) [];
    Field "due_date" (Plain TDatetime) [];
    Field "subtotal_time" (Plain TDecimal) [default (VDecimal (mkDecimal 0 0)); decimal_places 2];
    Field "subtotal_expenses" (Plain TDecimal) [default (VDecimal (mkDecimal 0 0)); decimal_places 2];
    Field "total_amount" (Plain TDecimal) [decimal_places 2];
    Field "status" (Plain TStr) [max_length 50];
    Field "notes" (Optional TStr) [default VNone; max_length 2000];
    Field "created_at" (Plain TDatetime) [default_factory_utcnow];
    Field "sent_at" (Optional TDatetime) [default VNone];
    Field "paid_at" (Optional TDatetime) [default VNone] ].

(** [class InvoiceLineItem(SQLModel, table=True)], models.py line 391. *)
Definition InvoiceLineItem : Model := mkModel "InvoiceLineItem" true
  [ Field "id" (Optional TInt) [default VNone; primary_key];
    Field "invoice_id" (Plain TInt) [foreign_key "invoices.id"];
    Field "time_entry_id" (Optional TInt) [default VNone; foreign_key "time_entries.id"];
    Field "expense_id" (Optional TInt) [default VNone; foreign_key "expenses.id"];
    Field "line_type" (Plain TStr) [max_length 50];
    Field "date" (Plain TDatetime) [];
    Field "resource_name" (Plain TStr) [max_length 200];
    Field "resource_type" (Plain (TEnum CResourceType)) [];
    Field "description" (Plain TStr) [max_length 1000];
    Field "quantity" (Plain TDecimal) [decimal_places 3];
    Field "rate" (Plain TDecimal) [decimal_places 2];
    Field "amount" (Plain TDecimal) [decimal_places 2];
    Field "created_at" (Plain TDatetime) [default_factory_utcnow] ].

(** [class TrustAccount(SQLModel, table=True)], models.py line 418. *)
Definition TrustAccount : Model := mkModel "TrustAccount" true
  [ Field "id" (Optional TInt) [default VNone; primary_key];
    Field "account_name" (Plain TStr) [max_length 200];
    Field "account_number" (Plain TStr) [unique; max_length 100];
    Field "bank_name" (Plain TStr) [max_length 200];
    Field "current_balance" (Plain TDecimal) [default (VDecimal (mkDecimal 0 0)); decimal_places 2];
    Field "is_active" (Plain TBool) [default (VBool true)];
    Field "created_at" (Plain TDatetime) [default_factory_utcnow] ].

(** [class TrustTransaction(SQLModel, table=True)], models.py line 433. *)
Definition TrustTransaction : Model := mkModel "TrustTransaction" true
  [ Field "id" (Optional TInt) [default VNone; primary_key];
    Field "trust_account_id" (Plain TInt) [foreign_key "trust_accounts.id"];
    Field "case_id" (Plain TInt) [foreign_key "cases.id"];
    Field "transaction_type" (Plain (TEnum CTransactionType)) [];
    Field "amount" (Plain TDecimal) [decimal_places 2];
    Field "description" (Plain TStr) [max_length 500];
    Field "reference_number" (Optional TStr) [default VNone; max_length 100];
    Field "transaction_date" (Plain TDatetime) [];
    Field "created_at" (Plain TDatetime) [default_factory_utcnow] ].

(** [class Account(SQLModel, table=True)], models.py line 454. *)
Definition Account : Model := mkModel "Account" true
  [ Field "id" (Optional TInt) [default VNone; primary_key];
    Field "account_number" (Plain TStr) [unique; max_length 20];
    Field "account_name" (Plain TStr) [max_length 200];
    Field "account_type" (Plain (TEnum CAccountType)) [];
    Field "parent_account_id" (Optional TInt) [default VNone; foreign_key "accounts.id"];
    Field "description" (Optional TStr) [default VNone; max_length 500];
    Field "is_active" (Plain TBool) [default (VBool true)];
    Field "created_at" (Plain TDatetime) [default_factory_utcnow] ].

(** [class JournalEntry(SQLModel, table=True)], models.py line 473. *)
Definition JournalEntry : Model := mkModel "JournalEntry" true
  [ Field "id" (Optional TInt) [default VNone; primary_key];
    Field "account_id" (Plain TInt) [foreign_key "accounts.id"];
    Field "entry_date" (Plain TDatetime) [];
    Field "reference_number" (Optional TStr) [default VNone; max_length 100];
    Field "description" (Plain TStr) [max_length 500];
    Field "debit_amount" (Plain TDecimal) [default (VDecimal (mkDecimal 0 0)); decimal_places 2];
    Field "credit_amount" (Plain TDecimal) [default (VDecimal (mkDecimal 0 0)); decimal_places 2];
    Field "source_type" (Optional TStr) [default VNone; max_length 50];
    Field "source_id" (Optional TInt) [default VNone];
    Field "created_at" (Plain TDatetime) [default_factory_utcnow];
    Field "created_by_id" (Plain TInt) [foreign_key "users.id"] ].

(** [class UserCreate(SQLModel, table=False)], models.py line 497. *)
Definition UserCreate : Model := mkModel "UserCreate" false
  [ Field "email" (Plain TStr) [max_length 255];
    Field "first_name" (Plain TStr) [max_length 100];
    Field "last_name" (Plain TStr) [max_length 100];
    Field "role" (Plain (TEnum CUserRole)) [];
    Field "phone" (Optional TStr) [default VNone; max_length 20];
    Field "hourly_rate" (Optional TDecimal) [default VNone; decimal_places 2] ].

(** [class ClientCreate(SQLModel, table=False)], models.py line 506. *)
Definition ClientCreate : Model := mkModel "ClientCreate" false
  [ Field "client_type" (Plain (TEnum CClientType)) [];
    Field "first_name" (Optional TStr) [default VNone; max_length 100];
    Field "last_name" (Optional TStr) [default VNone; max_length 100];
    Field "organization_name" (Optional TStr) [default VNone; max_length 200];
    Field "email" (Optional TStr) [default VNone; max_length 255];
    Field "phone" (Optional TStr) [default VNone; max_length 20] ].

(** [class CaseCreate(SQLModel, table=False)], models.py line 515. *)
Definition CaseCreate : Model := mkModel "CaseCreate" false
  [ Field "case_number" (Plain TStr) [max_length 100];
    Field "title" (Plain TStr) [max_length 500];
    Field "description" (Optional TStr) [default VNone; max_length 2000];
    Field "client_id" (Plain TInt) [];
    Field "case_type_id" (Plain TInt) [];
    Field "assigned_attorney_id" (Optional TInt) [default VNone];
    Field "billing_model" (Plain (TEnum CBillingModel)) [] ].

(** [class ActivityCreate(SQLModel, table=False)], models.py line 525. *)
Definition ActivityCreate : Model := mkModel "ActivityCreate" false
  [ Field "case_id" (Plain TInt) [];
    Field "assigned_user_id" (Optional TInt) [default VNone];
    Field "title" (Plain TStr) [max_length 500];
    Field "description" (Optional TStr) [default VNone; max_length 2000];
    Field "activity_type" (Plain TStr) [max_length 100];
    Field "due_date" (Optional TDatetime) [default VNone];
    Field "is_court_date" (Plain TBool) [default (VBool false)];
    Field "is_critical_deadline" (Plain TBool) [default (VBool false)] ].

(** [class TimeEntryCreate(SQLModel, table=False)], models.py line 536. *)
Definition TimeEntryCreate : Model := mkModel "TimeEntryCreate" false
  [ Field "activity_id" (Plain TInt) [];
    Field "user_id" (Plain TInt) [];
    Field "hours" (Plain TDecimal) [decimal_places 1];
    Field "rate_per_hour" (Plain TDecimal) [decimal_places 2];
    Field "description" (Plain TStr) [max_length 1000];
    Field "date" (Plain TDatetime) [] ].

(** [class ExpenseCreate(SQLModel, table=False)], models.py line 545. *)
Definition ExpenseCreate : Model := mkModel "ExpenseCreate" false
  [ Field "case_id" (Plain TInt) [];
    Field "user_id" (Plain TInt) [];
    Field "description" (Plain TStr) [max_length 500];
    Field "expense_type" (Plain (TEnum CExpenseType)) [];
    Field "amount" (Plain TDecimal) [decimal_places 2];
    Field "markup_percentage" (Plain TDecimal) [default (VDecimal (mkDecimal 0 0)); decimal_places 2];
    Field "expense_date" (Plain TDatetime) [];
    Field "category" (Plain TStr) [max_length 100];
    Field "vendor" (Optional TStr) [default VNone; max_length 200] ].

(** [class InvoiceCreate(SQLModel, table=False)], models.py line 557. *)
Definition InvoiceCreate : Model := mkModel "InvoiceCreate" false
  [ Field "case_id" (Plain TInt) [];
    Field "invoice_date" (Plain TDatetime) [];
    Field "due_date" (Plain TDatetime) [];
    Field "notes" (Optional TStr) [default VNone; max_length 2000] ].

(** Every [SQLModel] class of the module, in source order. *)
Definition models : list Model :=
  [User; Client; BeneficiaryRelationship; CaseType; Case; OpposingParty;
   Jurisdiction; CaseJurisdiction; Document; Activity; TimeEntry; Expense;
   Invoice; InvoiceLineItem; TrustAccount; TrustTransaction; Account;
   JournalEntry; UserCreate; ClientCreate; CaseCreate; ActivityCreate;
   TimeEntryCreate; ExpenseCreate; InvoiceCreate].

(** The persistent entities ([table=True]) and the validation schemas
    ([table=False]). *)
Definition entities : list Model := filter (fun m => m_table m = true) models.
Definition create_schemas : list Model := filter (fun m => m_table m = false) models.


(** ** Validation of a payload against a class

    [validate] walks the declared fields, takes each one from the payload
    or from its declared default, checks the supplied value against the
    annotation and the [Field] constraints, and either returns the
    instance or raises one [ValidationError] that lists every offending
    field by name.  Declared defaults are used as they are.  Keys of the
    payload that name no field are ignored.

    For a [table=False] class this is [Model.model_validate(payload)].  A
    [table=True] class is a mapped class: instantiating it configures the
    mappers before any field is read ([model_validate] below), so on such
    a class [validate] speaks of the declared field checks only.

    A payload token is accepted by the field type it is a token of; the
    framework's conversions between kinds of token (a numeric string for
    an [int], an [int] for a [Decimal]) are left out, and no statement
    below rests on a token of another kind being refused. *)

Inductive ErrorKind :=
| missing
| type_error (expected : FieldType)
| string_too_long (limit : nat)
| decimal_max_places (limit : nat)
| enum_error (c : EnumClass).

Record FieldError := mkError { loc : string; kind : ErrorKind }.

Inductive Result :=
| Ok (instance : gmap string Value)
| ValidationError (errors : list FieldError).

(** A string is kept as its bytes in UTF-8.  A character is counted at
    its first byte; the continuation bytes (binary 10xxxxxx) are not
    counted. *)
Definition is_continuation (c : Ascii.ascii) : bool :=
  match c with
  | Ascii.Ascii _ _ _ _ _ _ b6 b7 => b7 && negb b6
  end.

Fixpoint char_length (s : string) : nat :=
  match s with
  | EmptyString => O
  | String c rest =>
      if is_continuation c then char_length rest else S (char_length rest)
  end.

(** [max_length] bounds the number of characters of the string. *)
Definition check_str (f : FieldInfo) (s : string) : ErrorKind + Value :=
  match f_max_length f with
  | Some n => if (char_length s <=? n)%nat then inr (VStr s)
              else inl (string_too_long n)
  | None => inr (VStr s)
  end.

(** [decimal_places] bounds the digits after the point that are left
    without the trailing zeros.  It is a maximum: a decimal within it is
    accepted and kept with the digits and exponent it came with.  (The
    coefficient is taken to fit the 28 digits of the decimal context, in
    which [normalize] does not round.) *)
Definition check_decimal (f : FieldInfo) (d : Decimal) : ErrorKind + Value :=
  match f_decimal_places f with
  | Some n => if (normalized_places d <=? n)%nat then inr (VDecimal d)
              else inl (decimal_max_places n)
  | None => inr (VDecimal d)
  end.

Definition check_enum (c : EnumClass) (token : string) : ErrorKind + Value :=
  match enum_lookup c token with
  | Some m => inr (VEnum m)
  | None => inl (enum_error c)
  end.

(** The error for a value that is no value of the field's type, null
    included when the field is not [Optional]: the type error of the
    field, which for an enumeration is its membership error. *)
Definition kind_error (ty : FieldType) : ErrorKind :=
  match ty with
  | TEnum c => enum_error c
  | _ => type_error ty
  end.

(** A supplied value against the annotation and constraints of a field. *)
Definition check_value (f : FieldInfo) (raw : Raw) : ErrorKind + Value :=
  match raw, f_type f with
  | RNull, ty => if f_nullable f then inr VNone else inl (kind_error ty)
  | RInt z, TInt => inr (VInt z)
  | RStr s, TStr => check_str f s
  | RBool b, TBool => inr (VBool b)
  | RDec d, TDecimal => check_decimal f d
  | RDatetime t, TDatetime => inr (VDatetime t)
  | RStr s, TEnum c => check_enum c s
  | _, ty => inl (kind_error ty)
  end.

(** The value a field takes when the payload does not supply it; [now] is
    the clock read by [default_factory=datetime.utcnow].  The code reads
    the clock once for every such field, which the one reading [now] does
    not tell apart; no statement below fixes or compares the values of
    stamped fields, and the validation schemas have none. *)
Definition default_value (now : Z) (f : FieldInfo) : option Value :=
  match f_default f with
  | NoDefault => None
  | DefaultValue v => Some v
  | DefaultFactory => Some (VDatetime now)
  end.

Definition validate_field (now : Z) (f : FieldInfo) (payload : gmap string Raw)
  : ErrorKind + Value :=
  match payload !! f_name f with
  | Some raw => check_value f raw
  | None =>
      match default_value now f with
      | Some v => inr v
      | None => inl missing
      end
  end.

Fixpoint validate_fields (now : Z) (fs : list FieldInfo) (payload : gmap string Raw)
  : list FieldError * gmap string Value :=
  match fs with
  | [] => ([], ∅)
  | f :: rest =>
      let '(errors, inst) := validate_fields now rest payload in
      match validate_field now f payload with
      | inl k => (mkError (f_name f) k :: errors, inst)
      | inr v => (errors, <[f_name f := v]> inst)
      end
  end.

Definition validate (now : Z) (M : Model) (payload : gmap string Raw) : Result :=
  match validate_fields now (m_fields M) payload with
  | ([], inst) => Ok inst
  | (errors, _) => ValidationError errors
  end.

(** [M.model_fields.get(name)]. *)
Definition find_field (name : string) (fs : list FieldInfo) : option FieldInfo :=
  find (fun f => String.eqb (f_name f) name) fs.

Definition field_names (M : Model) : list string := map f_name (m_fields M).

(** ** Decidable equality of the data *)

#[global] Instance UserRole_eq_dec : EqDecision UserRole.t.
Proof. solve_decision. Defined.
#[global] Instance ClientType_eq_dec : EqDecision ClientType.t.
Proof. solve_decision. Defined.
#[global] Instance CaseStatus_eq_dec : EqDecision CaseStatus.t.
Proof. solve_decision. Defined.
#[global] Instance ActivityBillableStatus_eq_dec : EqDecision ActivityBillableStatus.t.
Proof. solve_decision. Defined.
#[global] Instance ActivityStatus_eq_dec : EqDecision ActivityStatus.t.
Proof. solve_decision. Defined.
#[global] Instance BillingModel_eq_dec : EqDecision BillingModel.t.
Proof. solve_decision. Defined.
#[global] Instance ExpenseType_eq_dec : EqDecision ExpenseType.t.
Proof. solve_decision. Defined.
#[global] Instance ResourceType_eq_dec : EqDecision ResourceType.t.
Proof. solve_decision. Defined.
#[global] Instance TransactionType_eq_dec : EqDecision TransactionType.t.
Proof. solve_decision. Defined.
#[global] Instance AccountType_eq_dec : EqDecision AccountType.t.
Proof. solve_decision. Defined.
#[global] Instance EnumClass_eq_dec : EqDecision EnumClass.
Proof. solve_decision. Defined.
#[global] Instance EnumVal_eq_dec : EqDecision EnumVal.
Proof. solve_decision. Defined.
#[global] Instance Decimal_eq_dec : EqDecision Decimal.
Proof. solve_decision. Defined.
#[global] Instance Value_eq_dec : EqDecision Value.
Proof. solve_decision. Defined.
#[global] Instance Raw_eq_dec : EqDecision Raw.
Proof. solve_decision. Defined.
#[global] Instance FieldType_eq_dec : EqDecision FieldType.
Proof. solve_decision. Defined.
#[global] Instance Annotation_eq_dec : EqDecision Annotation.
Proof. solve_decision. Defined.
#[global] Instance FieldDefault_eq_dec : EqDecision FieldDefault.
Proof. solve_decision. Defined.
#[global] Instance FieldArg_eq_dec : EqDecision FieldArg.
Proof. solve_decision. Defined.
#[global] Instance FieldInfo_eq_dec : EqDecision FieldInfo.
Proof. solve_decision. Defined.
#[global] Instance ErrorKind_eq_dec : EqDecision ErrorKind.
Proof. solve_decision. Defined.
#[global] Instance Model_eq_dec : EqDecision Model.
Proof. solve_decision. Defined.

(** ** Create schemas and their entities *)

(** The entity a schema [XCreate] is the create shape of: the class [X]. *)
Definition entity_of (S : Model) : option Model :=
  find (fun E => String.eqb (m_name E ++ "Create") (m_name S)) entities.

(** The stored totals derived from other fields of the same record:
    [total_amount] of [TimeEntry], [Expense] (line 348: amount + markup)
    and [Invoice], and the two [Invoice] subtotals. *)
Definition computed_totals : list string :=
  ["total_amount"; "subtotal_time"; "subtotal_expenses"].

Definition is_timestamp (f : FieldInfo) : bool :=
  match f_default f with DefaultFactory => true | _ => false end.

(** A field the caller does not supply: the identifier, a timestamp
    stamped at construction, a computed total. *)
Definition server_assigned (f : FieldInfo) : bool :=
  f_primary_key f || is_timestamp f
  || bool_decide (f_name f ∈ computed_totals).

(** Two declarations of a field agree on what a caller must or may
    supply: annotation, default and value constraints. *)
Definition same_shape (f g : FieldInfo) : Prop :=
  f_name f = f_name g ∧ f_annotation f = f_annotation g
  ∧ f_default f = f_default g ∧ f_max_length f = f_max_length g
  ∧ f_decimal_places f = f_decimal_places g.

#[global] Instance same_shape_dec f g : Decision (same_shape f g).
Proof. unfold same_shape. apply _. Defined.

(** ** Derived totals, as the data model states them *)





(** ** Serialization *)

(** Modelled from the spec: the serializer, which models.py does not
    contain.  The external-interface contract lets a category field
    serialize as its declared string token and a decimal with its exact
    digits and scale; every other value is written as the token of its
    kind. *)
Definition dump_value (v : Value) : Raw :=
  match v with
  | VNone => RNull
  | VInt z => RInt z
  | VStr s => RStr s
  | VBool b => RBool b
  | VDecimal d => RDec d
  | VDatetime t => RDatetime t
  | VEnum m => RStr (enum_value m)
  end.

(** Modelled from the spec: serialization of an instance, field by field
    ([dump_value]); deserialization is [validate]. *)
Definition dump (inst : gmap string Value) : gmap string Raw :=
  dump_value <$> inst.

(** A declared default is a value its own field accepts. *)
Definition default_ok (f : FieldInfo) : Prop :=
  match f_default f with
  | NoDefault => True
  | DefaultValue v => check_value f (dump_value v) = inr v
  | DefaultFactory => f_type f = TDatetime
  end.

#[global] Instance default_ok_dec f : Decision (default_ok f).
Proof. unfold default_ok. destruct (f_default f); apply _. Defined.

(** The scale models.py declares for a [Decimal] field: 1 for hours, 3
    for line-item quantities, 2 for the rest. *)
Definition declared_scale (name : string) : nat :=
  if String.eqb name "hours" then 1%nat
  else if String.eqb name "quantity" then 3%nat
  else 2%nat.

(** ** The chart of accounts as a collection of [Account] records *)





(** What the create shape [S] owes its entity [E]. *)
Definition mirrors (S E : Model) : Prop :=
  Forall (fun f => Exists (same_shape f) (m_fields E)) (m_fields S)
  ∧ Forall (fun g => server_assigned g = true → f_name g ∉ field_names S) (m_fields E)
  ∧ Forall (fun f => server_assigned f = false) (m_fields S).

#[global] Instance mirrors_dec S E : Decision (mirrors S E).
Proof. unfold mirrors. apply _. Defined.

(** ** Sample payloads *)

Definition time_entry_create_payload : gmap string Raw :=
  list_to_map
    [("activity_id", RInt 7); ("user_id", RInt 3);
     ("hours", RDec (mkDecimal 25 (-1)));
     ("rate_per_hour", RDec (mkDecimal 15000 (-2)));
     ("description", RStr "Research"); ("date", RDatetime 0)].

(** The fields of [time_entry_create_payload]; the writer adds
    [total_amount]. *)
Definition time_entry_payload (total : Decimal) : gmap string Raw :=
  <["total_amount" := RDec total]> time_entry_create_payload.

Definition activity_payload : gmap string Raw :=
  list_to_map
    [("case_id", RInt 1); ("title", RStr "Hearing");
     ("activity_type", RStr "Court Date")].

(** A [UserCreate] payload with every required field and no optional
    one, whose role is not a member of [UserRole]. *)
Definition superadmin_payload : gmap string Raw :=
  list_to_map
    [("email", RStr "root@firm.example"); ("first_name", RStr "Ada");
     ("last_name", RStr "Stone"); ("role", RStr "superadmin")].

(** An [ExpenseCreate] payload with every required field and no optional
    one: [amount=Decimal("100.00")]. *)
Definition expense_create_payload : gmap string Raw :=
  list_to_map
    [("case_id", RInt 1); ("user_id", RInt 3);
     ("description", RStr "Court filing"); ("expense_type", RStr "reimbursable");
     ("amount", RDec (mkDecimal 10000 (-2)));
     ("expense_date", RDatetime 0); ("category", RStr "Filing Fees")].

(** The fields of [expense_create_payload] with
    [markup_percentage=Decimal("10")]; the writer adds [total_amount]. *)
Definition expense_payload (total : Decimal) : gmap string Raw :=
  <["total_amount" := RDec total]>
    (<["markup_percentage" := RDec (mkDecimal 10 0)]> expense_create_payload).






(** ** Tables, foreign keys and relationship accessors

    A [table=True] class also carries its [__tablename__] and its
    [Relationship(back_populates=...)] accessors.  An accessor annotated
    [X] is [ToOne], [Optional[X]] is [ToOneOptional], [List["X"]] is
    [ToMany]; its target is the class named in the annotation. *)

Inductive RelKind := ToOne | ToOneOptional | ToMany.

Record RelationshipInfo := Relationship {
  r_name : string;
  r_kind : RelKind;
  r_target : string;
  r_back_populates : string }.

Record Table := mkTable {
  t_model : Model;
  t_tablename : string;
  t_relationships : list RelationshipInfo }.

Definition User_table : Table := mkTable User "users"
  [ Relationship "assigned_cases" ToMany "Case" "assigned_attorney";
    Relationship "activities" ToMany "Activity" "assigned_user";
    Relationship "expenses" ToMany "Expense" "user";
    Relationship "time_entries" ToMany "TimeEntry" "user" ].

Definition Client_table : Table := mkTable Client "clients"
  [ Relationship "cases" ToMany "Case" "client";
    Relationship "beneficiary_relationships" ToMany "BeneficiaryRelationship" "beneficiary";
    Relationship "dependent_relationships" ToMany "BeneficiaryRelationship" "dependent" ].

Definition BeneficiaryRelationship_table : Table := mkTable BeneficiaryRelationship "beneficiary_relationships"
  [ Relationship "beneficiary" ToOne "Client" "beneficiary_relationships";
    Relationship "dependent" ToOne "Client" "dependent_relationships" ].

Definition CaseType_table : Table := mkTable CaseType "case_types"
  [ Relationship "cases" ToMany "Case" "case_type" ].

Definition Case_table : Table := mkTable Case "cases"
  [ Relationship "client" ToOne "Client" "cases";
    Relationship "case_type" ToOne "CaseType" "cases";
    Relationship "assigned_attorney" ToOneOptional "User" "assigned_cases";
    Relationship "activities" ToMany "Activity" "case";
    Relationship "expenses" ToMany "Expense" "case";
    Relationship "documents" ToMany "Document" "case";
    Relationship "opposing_parties" ToMany "OpposingParty" "case";
    Relationship "jurisdictions" ToMany "CaseJurisdiction" "case";
    Relationship "invoices" ToMany "Invoice" "case";
    Relationship "trust_transactions" ToMany "TrustTransaction" "case" ].

Definition OpposingParty_table : Table := mkTable OpposingParty "opposing_parties"
  [ Relationship "case" ToOne "Case" "opposing_parties" ].

Definition Jurisdiction_table : Table := mkTable Jurisdiction "jurisdictions"
  [ Relationship "case_jurisdictions" ToMany "CaseJurisdiction" "jurisdiction" ].

Definition CaseJurisdiction_table : Table := mkTable CaseJurisdiction "case_jurisdictions"
  [ Relationship "case" ToOne "Case" "jurisdictions";
    Relationship "jurisdiction" ToOne "Jurisdiction" "case_jurisdictions" ].

Definition Document_table : Table := mkTable Document "documents"
  [ Relationship "case" ToOne "Case" "documents" ].

Definition Activity_table : Table := mkTable Activity "activities"
  [ Relationship "case" ToOne "Case" "activities";
    Relationship "assigned_user" ToOneOptional "User" "activities";
    Relationship "time_entries" ToMany "TimeEntry" "activity" ].

Definition TimeEntry_table : Table := mkTable TimeEntry "time_entries"
  [ Relationship "activity" ToOne "Activity" "time_entries";
    Relationship "user" ToOne "User" "time_entries";
    Relationship "invoice_line_items" ToMany "InvoiceLineItem" "time_entry" ].

Definition Expense_table : Table := mkTable Expense "expenses"
  [ Relationship "case" ToOne "Case" "expenses";
    Relationship "user" ToOne "User" "expenses";
    Relationship "invoice_line_items" ToMany "InvoiceLineItem" "expense" ].

Definition Invoice_table : Table := mkTable Invoice "invoices"
  [ Relationship "case" ToOne "Case" "invoices";
    Relationship "line_items" ToMany "InvoiceLineItem" "invoice" ].

Definition InvoiceLineItem_table : Table := mkTable InvoiceLineItem "invoice_line_items"
  [ Relationship "invoice" ToOne "Invoice" "line_items";
    Relationship "time_entry" ToOneOptional "TimeEntry" "invoice_line_items";
    Relationship "expense" ToOneOptional "Expense" "invoice_line_items" ].

Definition TrustAccount_table : Table := mkTable TrustAccount "trust_accounts"
  [ Relationship "trust_transactions" ToMany "TrustTransaction" "trust_account" ].

Definition TrustTransaction_table : Table := mkTable TrustTransaction "trust_transactions"
  [ Relationship "trust_account" ToOne "TrustAccount" "trust_transactions";
    Relationship "case" ToOne "Case" "trust_transactions" ].

Definition Account_table : Table := mkTable Account "accounts"
  [ Relationship "parent_account" ToOneOptional "Account" "sub_accounts";
    Relationship "sub_accounts" ToMany "Account" "parent_account";
    Relationship "journal_entries" ToMany "JournalEntry" "account" ].

Definition JournalEntry_table : Table := mkTable JournalEntry "journal_entries"
  [ Relationship "account" ToOne "Account" "journal_entries" ].

(** The persistent classes with their table names and accessors, in
    source order. *)
Definition tables : list Table :=
  [User_table; Client_table; BeneficiaryRelationship_table; CaseType_table;
   Case_table; OpposingParty_table; Jurisdiction_table;
   CaseJurisdiction_table; Document_table; Activity_table; TimeEntry_table;
   Expense_table; Invoice_table; InvoiceLineItem_table; TrustAccount_table;
   TrustTransaction_table; Account_table; JournalEntry_table].

#[global] Instance RelKind_eq_dec : EqDecision RelKind.
Proof. solve_decision. Defined.
#[global] Instance RelationshipInfo_eq_dec : EqDecision RelationshipInfo.
Proof. solve_decision. Defined.
#[global] Instance Table_eq_dec : EqDecision Table.
Proof. solve_decision. Defined.

Fixpoint args_foreign_key (args : list FieldArg) : option string :=
  match args with
  | [] => None
  | foreign_key target :: _ => Some target
  | _ :: rest => args_foreign_key rest
  end.

Definition args_unique (args : list FieldArg) : bool :=
  existsb (fun a => match a with unique => true | _ => false end) args.

Definition f_foreign_key (f : FieldInfo) : option string := args_foreign_key (f_args f).
Definition f_unique (f : FieldInfo) : bool := args_unique (f_args f).

(** ["table.column"] split at the dot. *)
Definition split_dot (s : string) : option (string * string) :=
  match String.index 0 "." s with
  | Some i =>
      Some (String.substring 0 i s,
            String.substring (S i) (String.length s - S i) s)
  | None => None
  end.

Definition table_named (tn : string) : option Table :=
  find (fun t => String.eqb (t_tablename t) tn) tables.

Definition table_of_class (cls : string) : option Table :=
  find (fun t => String.eqb (m_name (t_model t)) cls) tables.

(** The table and column a [foreign_key="table.column"] field points to. *)
Definition fk_target (f : FieldInfo) : option (Table * FieldInfo) :=
  target ← f_foreign_key f;
  '(tn, col) ← split_dot target;
  u ← table_named tn;
  pk ← find_field col (m_fields (t_model u));
  Some (u, pk).

Definition find_relationship (name : string) (rs : list RelationshipInfo)
  : option RelationshipInfo :=
  find (fun r => String.eqb (r_name r) name) rs.

(** The accessor on the target class that [back_populates] names. *)
Definition rel_partner (r : RelationshipInfo) : option (Table * RelationshipInfo) :=
  u ← table_of_class (r_target r);
  r' ← find_relationship (r_back_populates r) (t_relationships u);
  Some (u, r').

(** The fields of a class that point to the table [tn]. *)
Definition fks_to (tn : string) (M : Model) : list FieldInfo :=
  filter (fun f => fst <$> (f_foreign_key f ≫= split_dot) = Some tn) (m_fields M).


(** ** Instantiating a persistent class

    A [table=True] class is mapped.  The first time any such class is
    instantiated, by its constructor or by [model_validate], the mappers
    of all of them are configured, and for every [Relationship] the join
    between the two tables is read off the foreign keys that link them.
    models.py names no [foreign_keys] on any accessor, so the join must
    be the only candidate: two candidates raise
    [AmbiguousForeignKeysError], none raises [NoForeignKeysError].  The
    later steps of the configuration are not modelled. *)

Inductive MapperError :=
| AmbiguousForeignKeysError
| NoForeignKeysError
| InvalidRequestError.

(** The foreign keys that link the tables of two classes, in either
    direction. *)
Definition join_candidates (t u : Table) : list FieldInfo :=
  if decide (t_tablename t = t_tablename u)
  then fks_to (t_tablename u) (t_model t)
  else fks_to (t_tablename u) (t_model t) ++ fks_to (t_tablename t) (t_model u).

(** The join of one accessor; [None] when it is determined. *)
Definition relationship_join (t : Table) (r : RelationshipInfo) : option MapperError :=
  match table_of_class (r_target r) with
  | None => Some InvalidRequestError
  | Some u =>
      match join_candidates t u with
      | [] => Some NoForeignKeysError
      | [_] => None
      | _ => Some AmbiguousForeignKeysError
      end
  end.

(** The first accessor, in source order, whose join is not determined. *)
Definition configure_mappers : option MapperError :=
  head (omap id (t ← tables; relationship_join t <$> t_relationships t)).

Inductive Outcome :=
| Instance (inst : gmap string Value)
| Refused (errors : list FieldError)
| MapperFailure (e : MapperError).

(** [M.model_validate(payload)], in a process that has not configured the
    mappers yet. *)
Definition model_validate (now : Z) (M : Model) (payload : gmap string Raw) : Outcome :=
  match (if m_table M then configure_mappers else None) with
  | Some e => MapperFailure e
  | None =>
      match validate now M payload with
      | Ok inst => Instance inst
      | ValidationError errors => Refused errors
      end
  end.

#[global] Instance MapperError_eq_dec : EqDecision MapperError.
Proof. solve_decision. Defined.

(** The accessors of models.py whose tables are linked by two foreign
    keys ([beneficiary_id] and [dependent_id]). *)
Definition ambiguous_accessors : list (string * string) :=
  [("Client", "beneficiary_relationships"); ("Client", "dependent_relationships");
   ("BeneficiaryRelationship", "beneficiary"); ("BeneficiaryRelationship", "dependent")].

(** A foreign key resolves to the integer primary key [id] of a declared
    table, and the referring field is an integer too. *)
Definition fk_resolves (f : FieldInfo) : Prop :=
  match fk_target f with
  | Some (u, pk) =>
      u ∈ tables ∧ f_name pk = "id" ∧ f_primary_key pk = true
      ∧ f_type pk = TInt ∧ f_type f = TInt
  | None => False
  end.

#[global] Instance fk_resolves_dec f : Decision (fk_resolves f).
Proof. unfold fk_resolves. destruct (fk_target f) as [[u pk]|]; apply _. Defined.

(** An accessor and the accessor its [back_populates] names point at each
    other. *)
Definition rel_paired (t : Table) (r : RelationshipInfo) : Prop :=
  match rel_partner r with
  | Some (u, r') =>
      u ∈ tables ∧ r_target r' = m_name (t_model t)
      ∧ r_back_populates r' = r_name r ∧ rel_partner r' = Some (t, r)
  | None => False
  end.

#[global] Instance rel_paired_dec t r : Decision (rel_paired t r).
Proof. unfold rel_paired. destruct (rel_partner r) as [[u r']|]; apply _. Defined.

(** The foreign-key field behind a to-one accessor [x]: the field [x_id]
    of the same class. *)
Definition rel_foreign_key (t : Table) (r : RelationshipInfo) : option FieldInfo :=
  find_field (r_name r ++ "_id") (m_fields (t_model t)).

(** A to-one accessor is backed by its [x_id] field, which points to the
    [id] of the target's table and is [Optional] exactly when the accessor
    is. *)
Definition rel_backed (t : Table) (r : RelationshipInfo) : Prop :=
  match rel_foreign_key t r, table_of_class (r_target r) with
  | Some f, Some u =>
      f_foreign_key f = Some (t_tablename u ++ ".id")
      ∧ (f_nullable f = true ↔ r_kind r = ToOneOptional)
  | _, _ => False
  end.

#[global] Instance rel_backed_dec t r : Decision (rel_backed t r).
Proof.
  unfold rel_backed.
  destruct (rel_foreign_key t r), (table_of_class (r_target r)); apply _.
Defined.

(** A to-many accessor is the reverse side of a to-one accessor of the
    target class, whose foreign key points back to this table. *)
Definition rel_reverse (t : Table) (r : RelationshipInfo) : Prop :=
  match rel_partner r with
  | Some (u, r') =>
      r_kind r' ≠ ToMany
      ∧ ∃ f, rel_foreign_key u r' = Some f
             ∧ f_foreign_key f = Some (t_tablename t ++ ".id")
  | None => False
  end.

#[global] Instance rel_reverse_dec t r : Decision (rel_reverse t r).
Proof.
  unfold rel_reverse. destruct (rel_partner r) as [[u r']|]; [|apply _].
  destruct (rel_foreign_key u r') as [f|].
  - destruct (decide (r_kind r' ≠ ToMany
                      ∧ f_foreign_key f = Some (t_tablename t ++ ".id"))) as [H|H].
    + left. destruct H. eauto.
    + right. intros (? & g & [= <-] & ?). tauto.
  - right. intros (_ & g & Hg & _). discriminate Hg.
Defined.

(** The field is reachable through a to-one accessor of its class. *)
Definition has_accessor (t : Table) (f : FieldInfo) : Prop :=
  Exists (fun r => r_kind r ≠ ToMany ∧ r_name r ++ "_id" = f_name f)
         (t_relationships t).

(** The foreign keys of models.py that no accessor exposes. *)
Definition unexposed_foreign_keys : list (string * string) :=
  [("Document", "uploaded_by_id"); ("JournalEntry", "created_by_id")].

(** A [UserCreate] payload for an attorney, with the optional phone. *)
Definition user_create_payload : gmap string Raw :=
  list_to_map
    [("email", RStr "ada@firm.example"); ("first_name", RStr "Ada");
     ("last_name", RStr "Stone"); ("role", RStr "attorney");
     ("phone", RStr "555-0100")].


(** The fields models.py declares with [unique=True]. *)
Definition unique_keys : list (string * string) :=
  [("User", "email"); ("Case", "case_number"); ("Invoice", "invoice_number");
   ("TrustAccount", "account_number"); ("Account", "account_number")].

(** ** General facts about [validate] *)

Section validate_facts.
Context (now : Z) (payload : gmap string Raw).

Lemma validate_fields_error fs f k :
  f ∈ fs → validate_field now f payload = inl k →
  mkError (f_name f) k ∈ (validate_fields now fs payload).1.
Proof.
  induction fs as [|g rest IH]; intros Hin Hk; [by apply elem_of_nil in Hin|].
  apply elem_of_cons in Hin. simpl.
  destruct (validate_fields now rest payload) as [errors inst] eqn:E.
  destruct Hin as [->|Hin].
  - rewrite Hk. simpl. apply elem_of_cons; by left.
  - specialize (IH Hin Hk). simpl in IH.
    destruct (validate_field now g payload); simpl; [apply elem_of_cons; by right|done].
Qed.

Lemma validate_fields_errors_nil fs :
  (validate_fields now fs payload).1 = [] ↔
  ∀ f, f ∈ fs → ∃ v, validate_field now f payload = inr v.
Proof.
  induction fs as [|g rest IH]; simpl.
  - split; [intros _ f Hf; by apply elem_of_nil in Hf|done].
  - destruct (validate_fields now rest payload) as [errors inst] eqn:E.
    simpl in IH. destruct (validate_field now g payload) as [k|v] eqn:Eg; simpl.
    + split; [done|]. intros H. destruct (H g) as [v Hv]; [apply elem_of_cons; by left|].
      congruence.
    + rewrite IH. split.
      * intros H f Hf. apply elem_of_cons in Hf as [->|Hf]; eauto.
      * intros H f Hf. apply H. apply elem_of_cons; by right.
Qed.

Lemma validate_fields_lookup fs name :
  (validate_fields now fs payload).1 = [] →
  (validate_fields now fs payload).2 !! name =
    f ← find_field name fs;
    match validate_field now f payload with inr v => Some v | inl _ => None end.
Proof.
  induction fs as [|g rest IH]; simpl; [intros _; apply lookup_empty|].
  destruct (validate_fields now rest payload) as [errors inst] eqn:E.
  simpl in IH. destruct (validate_field now g payload) as [k|v] eqn:Eg; simpl; [done|].
  intros ->. destruct (String.eqb_spec (f_name g) name) as [->|Hne]; simpl.
  - rewrite Eg. apply lookup_insert_eq.
  - rewrite lookup_insert_ne by done. by apply IH.
Qed.

Lemma validate_Ok_iff M :
  (∃ inst, validate now M payload = Ok inst) ↔
  ∀ f, f ∈ m_fields M → ∃ v, validate_field now f payload = inr v.
Proof.
  rewrite <- validate_fields_errors_nil. unfold validate.
  destruct (validate_fields now (m_fields M) payload) as [[|e errors] inst]; simpl.
  - split; eauto.
  - split; [intros [? ?]|]; done.
Qed.

Lemma validate_Ok_lookup M inst name :
  validate now M payload = Ok inst →
  inst !! name =
    f ← find_field name (m_fields M);
    match validate_field now f payload with inr v => Some v | inl _ => None end.
Proof.
  unfold validate. intros H. rewrite <- validate_fields_lookup.
  - destruct (validate_fields now (m_fields M) payload) as [[|e errors] inst']; by inversion H.
  - destruct (validate_fields now (m_fields M) payload) as [[|e errors] inst']; by inversion H.
Qed.

Lemma validate_rejects M f k :
  f ∈ m_fields M → validate_field now f payload = inl k →
  ∃ errors, validate now M payload = ValidationError errors
            ∧ mkError (f_name f) k ∈ errors.
Proof.
  intros Hin Hk. pose proof (validate_fields_error _ _ _ Hin Hk) as He.
  unfold validate. destruct (validate_fields now (m_fields M) payload) as [[|e errors] inst].
  - by apply elem_of_nil in He.
  - eauto.
Qed.

End validate_facts.

Lemma find_field_NoDup fs f :
  NoDup (map f_name fs) → f ∈ fs → find_field (f_name f) fs = Some f.
Proof.
  induction fs as [|g rest IH]; intros Hnd Hin; [by apply elem_of_nil in Hin|].
  simpl in Hnd. apply NoDup_cons in Hnd as [Hg Hnd]. simpl.
  apply elem_of_cons in Hin as [->|Hin]; [by rewrite String.eqb_refl|].
  destruct (String.eqb_spec (f_name g) (f_name f)) as [Heq|Hne]; [|by apply IH].
  exfalso. apply Hg. rewrite Heq. apply list_elem_of_fmap. eauto.
Qed.

(** ** Facts about the declarations *)

Lemma field_names_NoDup M : M ∈ models → NoDup (field_names M).
Proof.
  revert M. apply Forall_forall. compute_done.
Qed.

Lemma defaults_ok M : M ∈ models → Forall default_ok (m_fields M).
Proof.
  revert M. apply Forall_forall. compute_done.
Qed.

Lemma entities_in_models M : M ∈ entities → M ∈ models.
Proof. unfold entities. rewrite list_elem_of_filter. tauto. Qed.

Lemma create_schemas_in_models M : M ∈ create_schemas → M ∈ models.
Proof. unfold create_schemas. rewrite list_elem_of_filter. tauto. Qed.

Lemma mirrors_spec S E :
  mirrors S E →
  (∀ f, f ∈ m_fields S → ∃ g, g ∈ m_fields E ∧ same_shape f g)
  ∧ (∀ g, g ∈ m_fields E → server_assigned g = true → f_name g ∉ field_names S)
  ∧ (∀ f, f ∈ m_fields S → server_assigned f = false).
Proof.
  intros (H1 & H2 & H3). rewrite Forall_forall in H1, H2, H3.
  split; [|split]; [|done|done].
  intros f Hf. specialize (H1 f Hf). by apply Exists_exists in H1.
Qed.

(** ** Facts about the enumerations *)

Lemma enum_lookup_Some c token m :
  enum_lookup c token = Some m → enum_value m = token ∧ m ∈ enum_members c.
Proof.
  unfold enum_lookup. intros H. apply find_some in H as [Hin Heq].
  split; [by apply String.eqb_eq|by apply list_elem_of_In].
Qed.

Lemma enum_lookup_None c token :
  token ∉ enum_values c → enum_lookup c token = None.
Proof.
  intros Hnot. unfold enum_lookup.
  destruct (find _ _) as [m|] eqn:E; [|done].
  apply find_some in E as [Hin Heq]. apply String.eqb_eq in Heq.
  exfalso. apply Hnot. unfold enum_values. rewrite <- Heq.
  apply list_elem_of_fmap. exists m. split; [done|by apply list_elem_of_In].
Qed.

Lemma enum_lookup_value m : enum_lookup (enum_class m) (enum_value m) = Some m.
Proof. by destruct m as [[]|[]|[]|[]|[]|[]|[]|[]|[]|[]]. Qed.

Lemma enum_lookup_is_Some c token :
  is_Some (enum_lookup c token) ↔ token ∈ enum_values c.
Proof.
  split.
  - intros [m Hm]. apply enum_lookup_Some in Hm as [<- Hin].
    unfold enum_values. apply list_elem_of_fmap. eauto.
  - intros Hin. destruct (enum_lookup c token) eqn:E; [eauto|].
    exfalso. unfold enum_lookup in E. unfold enum_values in Hin.
    apply list_elem_of_fmap in Hin as (m & -> & Hm).
    apply list_elem_of_In in Hm. apply (find_none _ _ E) in Hm.
    by rewrite String.eqb_refl in Hm.
Qed.

Lemma enum_classes_NoDup : NoDup enum_classes.
Proof. compute_done. Qed.

Lemma enum_classes_complete c : c ∈ enum_classes.
Proof. destruct c; compute_done. Qed.

(** ** The closed category sets *)

(** C5, as the specification words it: the closed category sets number
    exactly nine.  No duplicate-free list of all the enumeration classes
    of models.py has nine entries. *)
Lemma category_sets_not_nine :
  ¬ ∃ l : list EnumClass, NoDup l ∧ (∀ c, c ∈ l) ∧ length l = 9%nat.
Proof.
  intros (l & _ & Hall & Hlen).
  assert (length enum_classes ≤ length l)%nat as Hle.
  { apply submseteq_length, NoDup_submseteq; [apply enum_classes_NoDup|].
    intros c _. apply Hall. }
  simpl in Hle. lia.
Qed.

(** C5, amended: models.py defines exactly ten closed category sets
    (role, client type, case status, billable status, activity status,
    billing model, expense type, resource type, transaction type, account
    type).  Each is a fixed, duplicate-free set of string tokens, lookup
    by token succeeds on exactly those tokens, and each is the type of at
    least one declared field. *)
Theorem category_sets_are_ten :
  NoDup enum_classes ∧ (∀ c, c ∈ enum_classes) ∧ length enum_classes = 10%nat
  ∧ map (fun c => (c, enum_values c)) enum_classes =
      [ (CUserRole,
          ["firm_admin"; "managing_partner"; "attorney"; "paralegal";
           "accounting_staff"; "client"; "hr_representative";
           "company_manager"; "individual_employee"]);
        (CClientType, ["individual"; "organization"]);
        (CCaseStatus, ["pending"; "active"; "completed"; "stopped"]);
        (CActivityBillableStatus, ["non_billable"; "billable"; "billed"]);
        (CActivityStatus, ["pending"; "in_progress"; "completed"; "cancelled"]);
        (CBillingModel, ["hourly"; "flat_fee"; "contingency"; "retainer"]);
        (CExpenseType, ["reimbursable"; "non_reimbursable"]);
        (CResourceType, ["attorney"; "paralegal"; "admin"]);
        (CTransactionType, ["payment"; "refund"; "adjustment"; "billing"]);
        (CAccountType, ["asset"; "liability"; "equity"; "revenue"; "expense"]) ]
  ∧ (∀ c, NoDup (enum_values c)
          ∧ ∀ token, is_Some (enum_lookup c token) ↔ token ∈ enum_values c)
  ∧ (∀ c, ∃ M f, M ∈ models ∧ f ∈ m_fields M ∧ f_type f = TEnum c).
Proof.
  split; [apply enum_classes_NoDup|].
  split; [apply enum_classes_complete|].
  split; [reflexivity|]. split; [reflexivity|]. split.
  - intros c. split; [destruct c; compute_done|apply enum_lookup_is_Some].
  - intros [].
    + exists User, (Field "role" (Plain (TEnum CUserRole)) []). compute_done.
    + exists Client, (Field "client_type" (Plain (TEnum CClientType)) []). compute_done.
    + exists Case, (Field "status" (Plain (TEnum CCaseStatus))
                      [default (VEnum (EvCaseStatus CaseStatus.PENDING))]). compute_done.
    + exists TimeEntry, (Field "billable_status" (Plain (TEnum CActivityBillableStatus))
        [default (VEnum (EvActivityBillableStatus ActivityBillableStatus.BILLABLE))]).
      compute_done.
    + exists Activity, (Field "status" (Plain (TEnum CActivityStatus))
        [default (VEnum (EvActivityStatus ActivityStatus.PENDING))]). compute_done.
    + exists Case, (Field "billing_model" (Plain (TEnum CBillingModel)) []). compute_done.
    + exists Expense, (Field "expense_type" (Plain (TEnum CExpenseType)) []). compute_done.
    + exists InvoiceLineItem, (Field "resource_type" (Plain (TEnum CResourceType)) []).
      compute_done.
    + exists TrustTransaction, (Field "transaction_type" (Plain (TEnum CTransactionType)) []).
      compute_done.
    + exists Account, (Field "account_type" (Plain (TEnum CAccountType)) []). compute_done.
Qed.

(** ** Create shapes against their entities *)

(** C9: each of the seven Create schemas [XCreate] has only fields that
    its entity [X] also declares, under the same name and with the same
    annotation, default and constraints; it has no identifier, no
    construction-time timestamp and no computed total, neither as a field
    of its own nor under the name of such a field of the entity. *)
Theorem create_schemas_mirror_entities S :
  S ∈ create_schemas →
  length create_schemas = 7%nat
  ∧ ∃ E, entity_of S = Some E ∧ E ∈ entities
      ∧ (∀ f, f ∈ m_fields S → ∃ g, g ∈ m_fields E ∧ same_shape f g)
      ∧ (∀ g, g ∈ m_fields E → server_assigned g = true → f_name g ∉ field_names S)
      ∧ (∀ f, f ∈ m_fields S → server_assigned f = false).
Proof.
  intros HS. split; [reflexivity|].
  assert (Forall (fun S => ∃ E, entity_of S = Some E ∧ E ∈ entities ∧ mirrors S E)
            create_schemas) as Hall.
  { repeat constructor.
    - exists User. compute_done.
    - exists Client. compute_done.
    - exists Case. compute_done.
    - exists Activity. compute_done.
    - exists TimeEntry. compute_done.
    - exists Expense. compute_done.
    - exists Invoice. compute_done. }
  rewrite Forall_forall in Hall. destruct (Hall S HS) as (E & HE & Hin & Hm).
  exists E. split; [done|]. split; [done|]. by apply mirrors_spec.
Qed.

(** C9 at [TimeEntryCreate] and [InvoiceCreate]: neither carries
    [total_amount], and [InvoiceCreate] carries no subtotal. *)
Lemma create_schemas_mirror_entities_witness :
  TimeEntryCreate ∈ create_schemas
  ∧ entity_of TimeEntryCreate = Some TimeEntry
  ∧ ("total_amount" ∉ field_names TimeEntryCreate)
  ∧ ("total_amount" ∉ field_names InvoiceCreate)
  ∧ ("subtotal_time" ∉ field_names InvoiceCreate)
  ∧ ("subtotal_expenses" ∉ field_names InvoiceCreate).
Proof.
  assert (TimeEntryCreate ∈ create_schemas) as Ht by compute_done.
  assert (InvoiceCreate ∈ create_schemas) as Hi by compute_done.
  destruct (create_schemas_mirror_entities _ Ht) as (_ & Et & HEt & _ & _ & Hnt & _).
  destruct (create_schemas_mirror_entities _ Hi) as (_ & Ei & HEi & _ & _ & Hni & _).
  assert (entity_of TimeEntryCreate = Some TimeEntry) as HEt' by reflexivity.
  assert (entity_of InvoiceCreate = Some Invoice) as HEi' by reflexivity.
  assert (Et = TimeEntry) as -> by congruence.
  assert (Ei = Invoice) as -> by congruence.
  split; [done|]. split; [done|].
  split; [apply (Hnt (Field "total_amount" (Plain TDecimal) [decimal_places 2])); compute_done|].
  split; [apply (Hni (Field "total_amount" (Plain TDecimal) [decimal_places 2])); compute_done|].
  split.
  - apply (Hni (Field "subtotal_time" (Plain TDecimal)
                  [default (VDecimal (mkDecimal 0 0)); decimal_places 2])); compute_done.
  - apply (Hni (Field "subtotal_expenses" (Plain TDecimal)
                  [default (VDecimal (mkDecimal 0 0)); decimal_places 2])); compute_done.
Defined.

(** ** Validation: category membership, required fields, defaults *)

Lemma validate_field_supplied now f p raw :
  p !! f_name f = Some raw → validate_field now f p = check_value f raw.
Proof. unfold validate_field. by intros ->. Qed.

Lemma validate_field_absent now f p :
  p !! f_name f = None →
  validate_field now f p =
    match default_value now f with Some v => inr v | None => inl missing end.
Proof. unfold validate_field. by intros ->. Qed.

Lemma required_no_default now f : f_required f = true → default_value now f = None.
Proof. unfold f_required, default_value. by destruct (f_default f). Qed.

(** C4: whatever the class, a field annotated with an enumeration refuses
    every string outside the declared value set of that enumeration:
    validation raises an error located at the field and yields no
    instance. *)
Theorem category_field_rejects_unknown_token now M f c p token :
  f ∈ m_fields M → f_type f = TEnum c →
  p !! f_name f = Some (RStr token) → token ∉ enum_values c →
  (∃ errors, validate now M p = ValidationError errors
             ∧ mkError (f_name f) (enum_error c) ∈ errors)
  ∧ ∀ inst, validate now M p ≠ Ok inst.
Proof.
  intros Hf Hty Hp Hnot.
  assert (validate_field now f p = inl (enum_error c)) as Hk.
  { rewrite (validate_field_supplied _ _ _ _ Hp). unfold check_value. rewrite Hty.
    unfold check_enum. by rewrite enum_lookup_None. }
  destruct (validate_rejects now p M f _ Hf Hk) as (errors & Hv & He).
  split; [eauto|]. intros inst. by rewrite Hv.
Qed.

(** C4 at [UserCreate] with [role="superadmin"]. *)
Lemma category_field_rejects_unknown_token_witness :
  ("superadmin" ∉ enum_values CUserRole)
  ∧ validate 0 UserCreate superadmin_payload
      = ValidationError [mkError "role" (enum_error CUserRole)].
Proof.
  assert ("superadmin" ∉ enum_values CUserRole) as Hnot by compute_done.
  split; [done|].
  destruct (category_field_rejects_unknown_token 0 UserCreate
              (Field "role" (Plain (TEnum CUserRole)) []) CUserRole
              superadmin_payload "superadmin") as [(errors & Hv & He) _];
    [compute_done|reflexivity|compute_done|done|].
  rewrite Hv. f_equal. vm_compute in Hv. congruence.
Defined.

(** C3, as the specification words it: presence of every required field
    and absence of every optional one is enough for a Create schema to
    accept a payload.  [UserCreate] refuses [superadmin_payload], which
    has exactly the required fields. *)
Lemma required_fields_present_not_sufficient :
  ¬ ∀ now S (p : gmap string Raw), S ∈ create_schemas →
      (∀ f, f ∈ m_fields S →
         (f_required f = true → is_Some (p !! f_name f))
         ∧ (f_required f = false → p !! f_name f = None)) →
      ∃ inst, validate now S p = Ok inst.
Proof.
  intros H. destruct (H 0 UserCreate superadmin_payload) as [inst Hinst].
  - compute_done.
  - apply Forall_forall. compute_done.
  - vm_compute in Hinst. discriminate.
Qed.

Lemma create_schemas_no_factory S f :
  S ∈ create_schemas → f ∈ m_fields S → f_default f ≠ DefaultFactory.
Proof.
  intros HS. revert f. apply Forall_forall. revert S HS. apply Forall_forall.
  compute_done.
Qed.

(** C3, amended: for each of the seven Create schemas and every payload,
    (1) a required field absent from the payload makes validation raise
    an error that names the field as missing; (2) when every required
    field is present with a value its declaration accepts and every
    optional field is absent, validation returns an instance in which
    each optional field holds exactly its declared default and each
    required field holds the accepted value. *)
Theorem create_schema_required_and_defaults now S (p : gmap string Raw) :
  S ∈ create_schemas →
  (∀ f, f ∈ m_fields S → f_required f = true → p !! f_name f = None →
     ∃ errors, validate now S p = ValidationError errors
               ∧ mkError (f_name f) missing ∈ errors)
  ∧ ((∀ f, f ∈ m_fields S →
        (f_required f = true →
           ∃ raw v, p !! f_name f = Some raw ∧ check_value f raw = inr v)
        ∧ (f_required f = false → p !! f_name f = None)) →
     ∃ inst, validate now S p = Ok inst
       ∧ (∀ f, f ∈ m_fields S → f_required f = false →
            ∃ v, f_default f = DefaultValue v ∧ inst !! f_name f = Some v)
       ∧ (∀ f raw, f ∈ m_fields S → p !! f_name f = Some raw →
            ∃ v, check_value f raw = inr v ∧ inst !! f_name f = Some v)).
Proof.
  intros HS. split.
  - intros f Hf Hreq Hnone. apply validate_rejects; [done|].
    rewrite validate_field_absent by done. by rewrite required_no_default.
  - intros Hp.
    assert (NoDup (map f_name (m_fields S))) as Hnd
      by by apply field_names_NoDup, create_schemas_in_models.
    assert (∃ inst, validate now S p = Ok inst) as [inst Hv].
    { apply validate_Ok_iff. intros f Hf. destruct (Hp f Hf) as [Hreq Hopt].
      destruct (f_required f) eqn:Er.
      - destruct Hreq as (raw & v & Hraw & Hc); [done|].
        exists v. by rewrite (validate_field_supplied _ _ _ _ Hraw).
      - rewrite validate_field_absent by auto.
        unfold f_required in Er. unfold default_value.
        destruct (f_default f); [done|eauto..]. }
    exists inst. split; [done|]. split.
    + intros f Hf Hopt. destruct (Hp f Hf) as [_ Hnone]. specialize (Hnone Hopt).
      rewrite (validate_Ok_lookup _ _ _ _ _ Hv), find_field_NoDup by done. simpl.
      rewrite validate_field_absent by done.
      pose proof (create_schemas_no_factory S f HS Hf) as Hnf.
      unfold f_required in Hopt. unfold default_value.
      destruct (f_default f) as [|v|]; [done|eauto|done].
    + intros f raw Hf Hraw. destruct (Hp f Hf) as [Hreq Hopt].
      destruct (f_required f) eqn:Er; [|rewrite Hopt in Hraw; done].
      destruct Hreq as (raw' & v & Hraw' & Hc); [done|].
      assert (raw' = raw) as -> by congruence. exists v. split; [done|].
      rewrite (validate_Ok_lookup _ _ _ _ _ Hv), find_field_NoDup by done. simpl.
      by rewrite (validate_field_supplied _ _ _ _ Hraw), Hc.
Qed.

(** C3 at [ExpenseCreate]: without [amount] the payload is refused; with
    the seven required fields alone it is accepted, and
    [markup_percentage] is [Decimal("0")], [vendor] is [None]. *)
Lemma create_schema_required_and_defaults_witness :
  ExpenseCreate ∈ create_schemas
  ∧ (∃ errors, validate 0 ExpenseCreate (delete "amount" expense_create_payload)
                 = ValidationError errors
               ∧ mkError "amount" missing ∈ errors)
  ∧ ∃ inst, validate 0 ExpenseCreate expense_create_payload = Ok inst
      ∧ inst !! "markup_percentage" = Some (VDecimal (mkDecimal 0 0))
      ∧ inst !! "vendor" = Some VNone.
Proof.
  assert (ExpenseCreate ∈ create_schemas) as HS by compute_done.
  split; [done|]. split.
  - destruct (create_schema_required_and_defaults 0 ExpenseCreate
                (delete "amount" expense_create_payload) HS) as [Hmiss _].
    apply (Hmiss (Field "amount" (Plain TDecimal) [decimal_places 2])); compute_done.
  - destruct (create_schema_required_and_defaults 0 ExpenseCreate
                expense_create_payload HS) as [_ Hacc].
    destruct Hacc as (inst & Hv & Hdef & _).
    + intros f Hf. simpl in Hf.
      repeat (apply elem_of_cons in Hf as [->|Hf]); [..|by apply elem_of_nil in Hf];
        (split; intros Hr;
         first [ by vm_compute in Hr
               | eexists _, _; split; vm_compute; reflexivity
               | compute_done ]).
    + exists inst. split; [done|]. split.
      * destruct (Hdef (Field "markup_percentage" (Plain TDecimal)
                          [default (VDecimal (mkDecimal 0 0)); decimal_places 2]))
          as (v & Hd & Hl); [compute_done|reflexivity|].
        simpl in Hl. rewrite Hl. f_equal. unfold f_default in Hd. simpl in Hd. congruence.
      * destruct (Hdef (Field "vendor" (Optional TStr) [default VNone; max_length 200]))
          as (v & Hd & Hl); [compute_done|reflexivity|].
        simpl in Hl. rewrite Hl. f_equal. unfold f_default in Hd. simpl in Hd. congruence.
Defined.

(** ** Lookups in a declaration list and in an instance *)

Lemma find_field_Some name fs f :
  find_field name fs = Some f → f ∈ fs ∧ f_name f = name.
Proof.
  unfold find_field. intros H. apply find_some in H as [Hin Heq].
  split; [by apply list_elem_of_In|by apply String.eqb_eq].
Qed.


Lemma validate_Ok_value now M (p : gmap string Raw) inst f :
  NoDup (field_names M) → validate now M p = Ok inst → f ∈ m_fields M →
  ∃ v, inst !! f_name f = Some v ∧ validate_field now f p = inr v.
Proof.
  intros Hnd Hv Hf.
  destruct (proj1 (validate_Ok_iff now p M) (ex_intro _ inst Hv) f Hf) as [v Hfv].
  exists v. split; [|done].
  rewrite (validate_Ok_lookup _ _ _ _ _ Hv), find_field_NoDup by done.
  simpl. by rewrite Hfv.
Qed.


Lemma validate_fields_ext now fs (p q : gmap string Raw) :
  (∀ f, f ∈ fs → validate_field now f p = validate_field now f q) →
  validate_fields now fs p = validate_fields now fs q.
Proof.
  induction fs as [|g rest IH]; intros H; [done|]. simpl.
  rewrite IH by (intros f Hf; apply H, elem_of_cons; by right).
  rewrite (H g) by (apply elem_of_cons; by left). done.
Qed.

Lemma validate_ext now M (p q : gmap string Raw) :
  (∀ f, f ∈ m_fields M → validate_field now f p = validate_field now f q) →
  validate now M p = validate now M q.
Proof. intros H. unfold validate. by rewrite (validate_fields_ext _ _ p q). Qed.

Lemma same_name_same_field M f g :
  NoDup (field_names M) → f ∈ m_fields M → g ∈ m_fields M →
  f_name g = f_name f → g = f.
Proof.
  intros Hnd Hf Hg Hn.
  pose proof (find_field_NoDup _ _ Hnd Hf) as H1.
  pose proof (find_field_NoDup _ _ Hnd Hg) as H2.
  rewrite Hn in H2. congruence.
Qed.

(** ** Instantiating the persistent classes *)

Lemma mappers_ambiguous : configure_mappers = Some AmbiguousForeignKeysError.
Proof. compute_done. Qed.

Lemma entity_instantiation_fails now M (p : gmap string Raw) :
  M ∈ entities → model_validate now M p = MapperFailure AmbiguousForeignKeysError.
Proof.
  intros HM. unfold entities in HM. apply list_elem_of_filter in HM as [Ht _].
  unfold model_validate. by rewrite Ht, mappers_ambiguous.
Qed.

Lemma schema_model_validate now S (p : gmap string Raw) :
  S ∈ create_schemas →
  model_validate now S p =
    match validate now S p with
    | Ok inst => Instance inst
    | ValidationError errors => Refused errors
    end.
Proof.
  intros HS. unfold create_schemas in HS. apply list_elem_of_filter in HS as [Ht _].
  unfold model_validate. by rewrite Ht.
Qed.

Lemma tables_joins :
  Forall (fun t => Forall (fun r =>
            (relationship_join t r = Some AmbiguousForeignKeysError
             ↔ (m_name (t_model t), r_name r) ∈ ambiguous_accessors)
            ∧ (relationship_join t r = None
               ↔ (m_name (t_model t), r_name r) ∉ ambiguous_accessors))
          (t_relationships t)) tables.
Proof. compute_done. Qed.

(** X8: no persistent class of models.py can be instantiated.  The join
    of an accessor is determined for every accessor but the four between
    [Client] and [BeneficiaryRelationship], whose tables are linked by two
    foreign keys; for these it is ambiguous.  So configuring the mappers
    fails, and [model_validate] raises [AmbiguousForeignKeysError] for
    every [table=True] class and every payload, whatever the payload
    holds.  The [table=False] schemas are not mapped and validate their
    fields. *)
Theorem instantiation_fails_on_ambiguous_join t r :
  t ∈ tables → r ∈ t_relationships t →
  (relationship_join t r = Some AmbiguousForeignKeysError
   ↔ (m_name (t_model t), r_name r) ∈ ambiguous_accessors)
  ∧ (relationship_join t r = None
     ↔ (m_name (t_model t), r_name r) ∉ ambiguous_accessors)
  ∧ (∀ M now (p : gmap string Raw), M ∈ entities →
       model_validate now M p = MapperFailure AmbiguousForeignKeysError)
  ∧ (∀ S now (p : gmap string Raw), S ∈ create_schemas →
       model_validate now S p =
         match validate now S p with
         | Ok inst => Instance inst
         | ValidationError errors => Refused errors
         end).
Proof.
  intros Ht Hr. pose proof tables_joins as H.
  rewrite Forall_forall in H. specialize (H t Ht).
  rewrite Forall_forall in H. destruct (H r Hr) as [Ha Hn].
  split; [done|]. split; [done|]. split.
  - intros M now p. apply entity_instantiation_fails.
  - intros S now p. apply schema_model_validate.
Qed.

(** X8 at [Client.beneficiary_relationships], and at [User] given the
    fields of an accepted [UserCreate]. *)
Lemma instantiation_fails_on_ambiguous_join_witness :
  relationship_join Client_table
    (Relationship "beneficiary_relationships" ToMany "BeneficiaryRelationship"
       "beneficiary")
  = Some AmbiguousForeignKeysError
  ∧ f_name <$> join_candidates Client_table BeneficiaryRelationship_table
    = ["beneficiary_id"; "dependent_id"]
  ∧ model_validate 1000 User user_create_payload
    = MapperFailure AmbiguousForeignKeysError.
Proof.
  destruct (instantiation_fails_on_ambiguous_join Client_table
              (Relationship "beneficiary_relationships" ToMany
                 "BeneficiaryRelationship" "beneficiary"))
    as (Ha & _ & Hent & _); [compute_done|compute_done|].
  split; [apply Ha; compute_done|]. split; [reflexivity|].
  apply Hent. compute_done.
Defined.

(** ** Defaults of [billable_status] *)

(** C10: [billable_status] is declared with the default
    [ActivityBillableStatus.BILLABLE] ("billable") on [TimeEntry] and
    [ActivityBillableStatus.NON_BILLABLE] ("non_billable") on [Activity],
    two different members of the one enumeration both fields are
    annotated with.  No construction gets as far as these defaults:
    instantiating either class, with or without [billable_status] in the
    payload, raises [AmbiguousForeignKeysError] while the mappers are
    configured. *)
Theorem billable_status_defaults_not_reached :
  f_default <$> find_field "billable_status" (m_fields TimeEntry)
    = Some (DefaultValue (VEnum (EvActivityBillableStatus ActivityBillableStatus.BILLABLE)))
  ∧ f_default <$> find_field "billable_status" (m_fields Activity)
    = Some (DefaultValue
              (VEnum (EvActivityBillableStatus ActivityBillableStatus.NON_BILLABLE)))
  ∧ f_annotation <$> find_field "billable_status" (m_fields TimeEntry)
    = Some (Plain (TEnum CActivityBillableStatus))
  ∧ f_annotation <$> find_field "billable_status" (m_fields Activity)
    = Some (Plain (TEnum CActivityBillableStatus))
  ∧ ActivityBillableStatus.value ActivityBillableStatus.BILLABLE = "billable"
  ∧ ActivityBillableStatus.value ActivityBillableStatus.NON_BILLABLE = "non_billable"
  ∧ ActivityBillableStatus.BILLABLE ≠ ActivityBillableStatus.NON_BILLABLE
  ∧ time_entry_payload (mkDecimal 37500 (-2)) !! "billable_status" = None
  ∧ model_validate 1000 TimeEntry (time_entry_payload (mkDecimal 37500 (-2)))
    = MapperFailure AmbiguousForeignKeysError
  ∧ activity_payload !! "billable_status" = None
  ∧ model_validate 1000 Activity activity_payload
    = MapperFailure AmbiguousForeignKeysError.
Proof.
  repeat (split; [first [reflexivity|done|compute_done]|]).
  apply entity_instantiation_fails. compute_done.
Qed.

(** ** Stored totals *)











(** ** The parent links of [Account] *)





(** ** Serialization round trip *)

(** The token written for a validated value is the token it was
    validated from. *)
Lemma check_value_dump f raw v : check_value f raw = inr v → dump_value v = raw.
Proof.
  unfold check_value, check_str, check_decimal, check_enum.
  destruct raw as [|z|s|b|d|t], (f_type f) as [| | | | |c]; simpl;
    repeat case_match; intros [= <-]; try done.
  simpl. f_equal. by eapply enum_lookup_Some.
Qed.

Lemma default_value_dump now f v :
  default_ok f → default_value now f = Some v →
  check_value f (dump_value v) = inr v.
Proof.
  unfold default_ok, default_value. destruct (f_default f) as [|w|]; [done| |].
  - by intros ? [= <-].
  - intros Hty [= <-]. unfold check_value. by rewrite Hty.
Qed.

Lemma validate_dump now now' M (p : gmap string Raw) inst :
  NoDup (field_names M) → Forall default_ok (m_fields M) →
  validate now M p = Ok inst → validate now' M (dump inst) = Ok inst.
Proof.
  intros Hnd Hdef Hv. rewrite Forall_forall in Hdef.
  assert (∀ f, f ∈ m_fields M →
            ∃ v, inst !! f_name f = Some v
                 ∧ validate_field now' f (dump inst) = inr v) as Hfields.
  { intros f Hf.
    destruct (proj1 (validate_Ok_iff now p M) (ex_intro _ inst Hv) f Hf) as [v Hfv].
    assert (inst !! f_name f = Some v) as Hl.
    { rewrite (validate_Ok_lookup _ _ _ _ _ Hv), find_field_NoDup by done.
      simpl. by rewrite Hfv. }
    exists v. split; [done|].
    unfold validate_field, dump. rewrite lookup_fmap, Hl. simpl.
    unfold validate_field in Hfv. destruct (p !! f_name f) as [raw|].
    - by rewrite (check_value_dump _ _ _ Hfv).
    - destruct (default_value now f) as [w|] eqn:Ed; [|done].
      injection Hfv as <-. by eapply default_value_dump; eauto. }
  assert (∃ inst', validate now' M (dump inst) = Ok inst') as [inst' Hv'].
  { apply validate_Ok_iff. intros f Hf. destruct (Hfields f Hf) as (v & _ & Hfv). eauto. }
  rewrite Hv'. f_equal. apply map_eq. intros k.
  rewrite (validate_Ok_lookup _ _ _ _ k Hv'), (validate_Ok_lookup _ _ _ _ k Hv).
  destruct (find_field k (m_fields M)) as [f|] eqn:Ef; [|done]. simpl.
  apply find_field_Some in Ef as [Hf Hk].
  destruct (Hfields f Hf) as (v & Hl & Hfv). rewrite Hfv.
  rewrite (validate_Ok_lookup _ _ _ _ _ Hv), find_field_NoDup in Hl by done.
  simpl in Hl. by rewrite Hl.
Qed.

Lemma decimal_scales_as_declared M f :
  M ∈ models → f ∈ m_fields M → f_type f = TDecimal →
  f_decimal_places f = Some (declared_scale (f_name f)).
Proof.
  intros HM. revert f.
  apply (proj1 (Forall_forall (fun f => f_type f = TDecimal →
                  f_decimal_places f = Some (declared_scale (f_name f))) _)).
  revert M HM.
  apply (proj1 (Forall_forall
    (fun M => Forall (fun f => f_type f = TDecimal →
                 f_decimal_places f = Some (declared_scale (f_name f)))
                (m_fields M)) models)).
  compute_done.
Qed.

(** C6: an entity never comes back from its serialized fields.
    Deserializing into any [table=True] class raises
    [AmbiguousForeignKeysError] while the mappers are configured, whatever
    the payload holds, so no field value and no decimal scale is
    reproduced.  The [table=False] schemas, which are not mapped, do what
    the claim asks: an accepted value, written out field by field and
    validated again, is the same value, every decimal with the digits and
    exponent it had.  The declared scale of every [Decimal] field is 1 for
    hours, 3 for line-item quantities and 2 otherwise. *)
Theorem entity_round_trip_stops_at_mappers now M (p : gmap string Raw) :
  M ∈ entities →
  model_validate now M p = MapperFailure AmbiguousForeignKeysError
  ∧ (∀ S now' now'' (q : gmap string Raw) inst,
       S ∈ create_schemas → validate now' S q = Ok inst →
       model_validate now'' S (dump inst) = Instance inst
       ∧ (∀ name d, inst !! name = Some (VDecimal d) →
            dump inst !! name = Some (RDec d)))
  ∧ (∀ f, f ∈ m_fields M → f_type f = TDecimal →
       f_decimal_places f = Some (declared_scale (f_name f))).
Proof.
  intros HM. split; [by apply entity_instantiation_fails|]. split.
  - intros S now' now'' q inst HS Hv. split.
    + rewrite schema_model_validate by done.
      pose proof (create_schemas_in_models S HS) as HSm.
      by rewrite (validate_dump now' now'' S q inst
                    (field_names_NoDup S HSm) (defaults_ok S HSm) Hv).
    + intros name d Hl. unfold dump. by rewrite lookup_fmap, Hl.
  - intros f. apply decimal_scales_as_declared. by apply entities_in_models.
Qed.

(** C6 at [Expense] with [amount=Decimal("100.00")]: the entity raises,
    while [ExpenseCreate] reads the amount back with exponent -2. *)
Lemma entity_round_trip_stops_at_mappers_witness :
  Expense ∈ entities
  ∧ model_validate 2000 Expense (expense_payload (mkDecimal 11000 (-2)))
    = MapperFailure AmbiguousForeignKeysError
  ∧ ∃ inst, validate 1000 ExpenseCreate expense_create_payload = Ok inst
      ∧ model_validate 2000 ExpenseCreate (dump inst) = Instance inst
      ∧ dump inst !! "amount" = Some (RDec (mkDecimal 10000 (-2)))
      ∧ mkDecimal 10000 (-2) ≠ mkDecimal 1000 (-1).
Proof.
  assert (Expense ∈ entities) as HM by compute_done.
  destruct (entity_round_trip_stops_at_mappers 2000 Expense
              (expense_payload (mkDecimal 11000 (-2))) HM) as (Hfail & Hsib & _).
  split; [done|]. split; [done|].
  destruct (validate 1000 ExpenseCreate expense_create_payload) as [inst|errors] eqn:Hv;
    [|vm_compute in Hv; discriminate Hv].
  exists inst. split; [done|].
  destruct (Hsib ExpenseCreate 1000 2000 _ _ ltac:(compute_done) Hv) as [Hrt Hdec].
  split; [done|]. split; [|done].
  apply Hdec. vm_compute in Hv. injection Hv as <-. compute_done.
Defined.

(** ** Tables, foreign keys and accessors *)

Lemma tables_fk_resolve :
  Forall (fun t => Forall (fun f => is_Some (f_foreign_key f) → fk_resolves f)
                     (m_fields (t_model t))) tables.
Proof. compute_done. Qed.

(** X1: every [foreign_key] of every persistent class names the
    [__tablename__] of a class of the module and its column [id], which is
    that class's integer primary key; the referring field is an integer as
    well. *)
Theorem foreign_keys_resolve t f :
  t ∈ tables → f ∈ m_fields (t_model t) → is_Some (f_foreign_key f) →
  ∃ u pk, fk_target f = Some (u, pk) ∧ u ∈ tables
    ∧ f_name pk = "id" ∧ f_primary_key pk = true
    ∧ f_type pk = TInt ∧ f_type f = TInt.
Proof.
  intros Ht Hf Hfk. pose proof tables_fk_resolve as H.
  rewrite Forall_forall in H. specialize (H t Ht).
  rewrite Forall_forall in H. specialize (H f Hf Hfk).
  unfold fk_resolves in H. destruct (fk_target f) as [[u pk]|]; [|done].
  exists u, pk. tauto.
Qed.

(** X1 at [Case.client_id], which points to [clients.id]. *)
Lemma foreign_keys_resolve_witness :
  ∃ pk, fk_target (Field "client_id" (Plain TInt) [foreign_key "clients.id"])
        = Some (Client_table, pk)
        ∧ f_name pk = "id" ∧ f_primary_key pk = true.
Proof.
  destruct (foreign_keys_resolve Case_table
              (Field "client_id" (Plain TInt) [foreign_key "clients.id"]))
    as (u & pk & Hfk & _ & Hn & Hp & _); [compute_done|compute_done|by eexists|].
  exists pk. split; [|done].
  assert (fk_target (Field "client_id" (Plain TInt) [foreign_key "clients.id"])
          = Some (Client_table, Field "id" (Optional TInt) [default VNone; primary_key]))
    as Hc by reflexivity.
  congruence.
Defined.

Lemma tables_identifier :
  Forall (fun t =>
            filter (fun f => f_primary_key f = true) (m_fields (t_model t))
              = [Field "id" (Optional TInt) [default VNone; primary_key]]
            ∧ Forall (fun u => t_tablename u = t_tablename t → u = t) tables)
         tables.
Proof. compute_done. Qed.

(** X2: the persistent classes are exactly the [table=True] classes; each
    declares one primary key, the field [id: Optional[int] = None], and a
    table name no other class uses. *)
Theorem entity_identifier t :
  t ∈ tables →
  t_model <$> tables = entities
  ∧ filter (fun f => f_primary_key f = true) (m_fields (t_model t))
      = [Field "id" (Optional TInt) [default VNone; primary_key]]
  ∧ (∀ u, u ∈ tables → t_tablename u = t_tablename t → u = t).
Proof.
  intros Ht. pose proof tables_identifier as H.
  rewrite Forall_forall in H. destruct (H t Ht) as (Hpk & Huniq).
  rewrite Forall_forall in Huniq. done.
Qed.

(** X2 at [Account], stored in [accounts]. *)
Lemma entity_identifier_witness :
  Account_table ∈ tables
  ∧ f_name <$> filter (fun f => f_primary_key f = true) (m_fields Account) = ["id"]
  ∧ table_named "accounts" = Some Account_table.
Proof.
  assert (Account_table ∈ tables) as Ht by compute_done.
  destruct (entity_identifier _ Ht) as (_ & Hpk & _).
  split; [done|]. split; [|reflexivity].
  change (m_fields Account) with (m_fields (t_model Account_table)). by rewrite Hpk.
Defined.

Lemma tables_rel_paired :
  Forall (fun t => Forall (rel_paired t) (t_relationships t)) tables.
Proof. compute_done. Qed.

(** X3: the accessors come in pairs.  The [back_populates] of an accessor
    names an accessor of the target class, which targets the first class
    and names the first accessor in turn; taking the partner twice gives
    the accessor back. *)
Theorem relationships_are_paired t r :
  t ∈ tables → r ∈ t_relationships t →
  ∃ u r', rel_partner r = Some (u, r') ∧ u ∈ tables
    ∧ r_target r' = m_name (t_model t)
    ∧ r_back_populates r' = r_name r
    ∧ rel_partner r' = Some (t, r).
Proof.
  intros Ht Hr. pose proof tables_rel_paired as H.
  rewrite Forall_forall in H. specialize (H t Ht).
  rewrite Forall_forall in H. specialize (H r Hr).
  unfold rel_paired in H. destruct (rel_partner r) as [[u r']|]; [|done].
  exists u, r'. tauto.
Qed.

(** X3 at [Client.dependent_relationships], the partner of
    [BeneficiaryRelationship.dependent]. *)
Lemma relationships_are_paired_witness :
  rel_partner (Relationship "dependent_relationships" ToMany
                 "BeneficiaryRelationship" "dependent")
  = Some (BeneficiaryRelationship_table,
          Relationship "dependent" ToOne "Client" "dependent_relationships").
Proof.
  destruct (relationships_are_paired Client_table
              (Relationship "dependent_relationships" ToMany
                 "BeneficiaryRelationship" "dependent"))
    as (u & r' & Hp & _); [compute_done|compute_done|].
  rewrite Hp. vm_compute in Hp. injection Hp as <- <-. reflexivity.
Defined.

Lemma tables_rel_backed :
  Forall (fun t => Forall (fun r => r_kind r ≠ ToMany → rel_backed t r)
                     (t_relationships t)) tables.
Proof. compute_done. Qed.

(** X4: a to-one accessor [x] (annotated [X] or [Optional[X]]) is backed
    by the field [x_id] of the same class; that field is a foreign key to
    the [id] of the target's table, and it is [Optional] exactly when the
    accessor is. *)
Theorem to_one_accessor_has_foreign_key t r :
  t ∈ tables → r ∈ t_relationships t → r_kind r ≠ ToMany →
  ∃ f u, find_field (r_name r ++ "_id") (m_fields (t_model t)) = Some f
    ∧ table_of_class (r_target r) = Some u
    ∧ f_foreign_key f = Some (t_tablename u ++ ".id")
    ∧ (f_nullable f = true ↔ r_kind r = ToOneOptional).
Proof.
  intros Ht Hr Hk. pose proof tables_rel_backed as H.
  rewrite Forall_forall in H. specialize (H t Ht).
  rewrite Forall_forall in H. specialize (H r Hr Hk).
  unfold rel_backed, rel_foreign_key in H.
  destruct (find_field _ _) as [f|]; [|done].
  destruct (table_of_class _) as [u|]; [|done].
  exists f, u. tauto.
Qed.

(** X4 at [Case.assigned_attorney: Optional[User]], backed by the
    optional [assigned_attorney_id] that points to [users.id]. *)
Lemma to_one_accessor_has_foreign_key_witness :
  ∃ f, find_field "assigned_attorney_id" (m_fields Case) = Some f
       ∧ f_foreign_key f = Some "users.id" ∧ f_nullable f = true.
Proof.
  destruct (to_one_accessor_has_foreign_key Case_table
              (Relationship "assigned_attorney" ToOneOptional "User" "assigned_cases"))
    as (f & u & Hf & Hu & Hfk & Hn); [compute_done|compute_done|done|].
  exists f. split; [done|]. split; [|by apply Hn].
  vm_compute in Hu. injection Hu as <-. exact Hfk.
Defined.

Lemma tables_rel_reverse :
  Forall (fun t => Forall (fun r => r_kind r = ToMany → rel_reverse t r)
                     (t_relationships t)) tables.
Proof. compute_done. Qed.

(** X5: a to-many accessor ([List["X"]]) is the reverse side of a to-one
    accessor of the target class, and the foreign key behind that to-one
    accessor points back to the table of the class that holds the list.
    No two classes are linked list-to-list. *)
Theorem to_many_accessor_is_reverse t r :
  t ∈ tables → r ∈ t_relationships t → r_kind r = ToMany →
  ∃ u r' f, rel_partner r = Some (u, r') ∧ r_kind r' ≠ ToMany
    ∧ find_field (r_name r' ++ "_id") (m_fields (t_model u)) = Some f
    ∧ f_foreign_key f = Some (t_tablename t ++ ".id").
Proof.
  intros Ht Hr Hk. pose proof tables_rel_reverse as H.
  rewrite Forall_forall in H. specialize (H t Ht).
  rewrite Forall_forall in H. specialize (H r Hr Hk).
  unfold rel_reverse, rel_foreign_key in H.
  destruct (rel_partner r) as [[u r']|]; [|done].
  destruct H as (Hk' & f & Hf & Hfk). by exists u, r', f.
Qed.

(** X5 at [Account.sub_accounts], the reverse side of
    [Account.parent_account] over [parent_account_id]. *)
Lemma to_many_accessor_is_reverse_witness :
  ∃ f, rel_partner (Relationship "sub_accounts" ToMany "Account" "parent_account")
       = Some (Account_table,
               Relationship "parent_account" ToOneOptional "Account" "sub_accounts")
       ∧ find_field "parent_account_id" (m_fields Account) = Some f
       ∧ f_foreign_key f = Some "accounts.id".
Proof.
  destruct (to_many_accessor_is_reverse Account_table
              (Relationship "sub_accounts" ToMany "Account" "parent_account"))
    as (u & r' & f & Hp & _ & Hf & Hfk); [compute_done|compute_done|done|].
  assert (rel_partner (Relationship "sub_accounts" ToMany "Account" "parent_account")
          = Some (Account_table,
                  Relationship "parent_account" ToOneOptional "Account" "sub_accounts"))
    as Hc by reflexivity.
  rewrite Hc in Hp. injection Hp as <- <-. by exists f.
Defined.

Lemma tables_accessors :
  Forall (fun t => Forall (fun f => is_Some (f_foreign_key f) →
                      (has_accessor t f
                       ↔ (m_name (t_model t), f_name f) ∉ unexposed_foreign_keys))
                     (m_fields (t_model t))) tables.
Proof. compute_done. Qed.

(** X6: every foreign-key field [x_id] can be followed through a to-one
    accessor [x] of its class, except [Document.uploaded_by_id] and
    [JournalEntry.created_by_id], for which models.py declares no
    accessor. *)
Theorem foreign_key_accessors t f :
  t ∈ tables → f ∈ m_fields (t_model t) → is_Some (f_foreign_key f) →
  (∃ r, r ∈ t_relationships t ∧ r_kind r ≠ ToMany ∧ r_name r ++ "_id" = f_name f)
  ↔ (m_name (t_model t), f_name f) ∉ unexposed_foreign_keys.
Proof.
  intros Ht Hf Hfk. pose proof tables_accessors as H.
  rewrite Forall_forall in H. specialize (H t Ht).
  rewrite Forall_forall in H. specialize (H f Hf Hfk).
  rewrite <- H. unfold has_accessor. rewrite Exists_exists. done.
Qed.

(** X6 at [Document]: [case_id] has the accessor [case], [uploaded_by_id]
    has none. *)
Lemma foreign_key_accessors_witness :
  (∃ r, r ∈ t_relationships Document_table ∧ r_kind r ≠ ToMany
        ∧ r_name r ++ "_id" = "case_id")
  ∧ ¬ (∃ r, r ∈ t_relationships Document_table ∧ r_kind r ≠ ToMany
            ∧ r_name r ++ "_id" = "uploaded_by_id").
Proof.
  split.
  - apply (foreign_key_accessors Document_table
             (Field "case_id" (Plain TInt) [foreign_key "cases.id"]));
      [compute_done|compute_done|by eexists|compute_done].
  - intros Hr.
    apply (foreign_key_accessors Document_table
             (Field "uploaded_by_id" (Plain TInt) [foreign_key "users.id"])) in Hr;
      [|compute_done|compute_done|by eexists].
    apply Hr. compute_done.
Defined.

Lemma tables_fk_multiplicity :
  Forall (fun t => Forall (fun u =>
            (length (fks_to (t_tablename u) (t_model t)) ≤ 1)%nat
            ∨ (t = BeneficiaryRelationship_table ∧ u = Client_table
               ∧ f_name <$> fks_to (t_tablename u) (t_model t)
                 = ["beneficiary_id"; "dependent_id"]))
          tables) tables.
Proof. compute_done. Qed.

(** X7: a class holds at most one foreign key to any one table, with a
    single exception: [BeneficiaryRelationship] points to [clients] twice,
    through [beneficiary_id] and [dependent_id]. *)
Theorem one_foreign_key_per_table t u :
  t ∈ tables → u ∈ tables →
  (length (fks_to (t_tablename u) (t_model t)) ≤ 1)%nat
  ∨ (t = BeneficiaryRelationship_table ∧ u = Client_table
     ∧ f_name <$> fks_to (t_tablename u) (t_model t)
       = ["beneficiary_id"; "dependent_id"]).
Proof.
  intros Ht Hu. pose proof tables_fk_multiplicity as H.
  rewrite Forall_forall in H. specialize (H t Ht).
  rewrite Forall_forall in H. exact (H u Hu).
Qed.

(** X7 at [InvoiceLineItem], which points once each to [invoices],
    [time_entries] and [expenses]. *)
Lemma one_foreign_key_per_table_witness :
  f_name <$> fks_to "time_entries" InvoiceLineItem = ["time_entry_id"]
  ∧ (length (fks_to "time_entries" InvoiceLineItem) ≤ 1)%nat.
Proof.
  split; [reflexivity|].
  destruct (one_foreign_key_per_table InvoiceLineItem_table TimeEntry_table)
    as [Hle|(Habs & _)]; [compute_done|compute_done|exact Hle|discriminate Habs].
Defined.

(** ** Length and precision bounds *)

Lemma models_str_bounded :
  Forall (fun M => Forall (fun f => f_type f = TStr → is_Some (f_max_length f))
                     (m_fields M)) models.
Proof. compute_done. Qed.


(** X10: every [str] field of every class declares a [max_length].  In
    the validation schemas a string of more characters is refused with an
    error at that field, and a string the schema accepts is stored as it
    came, never cut. *)
Theorem string_fields_are_bounded S f :
  S ∈ create_schemas → f ∈ m_fields S → f_type f = TStr →
  (∀ M g, M ∈ models → g ∈ m_fields M → f_type g = TStr → is_Some (f_max_length g))
  ∧ ∃ n, f_max_length f = Some n
    ∧ (∀ now (p : gmap string Raw) s,
         p !! f_name f = Some (RStr s) → (n < char_length s)%nat →
         ∃ errors, validate now S p = ValidationError errors
                   ∧ mkError (f_name f) (string_too_long n) ∈ errors)
    ∧ (∀ now (p : gmap string Raw) s inst,
         p !! f_name f = Some (RStr s) → validate now S p = Ok inst →
         inst !! f_name f = Some (VStr s) ∧ (char_length s ≤ n)%nat).
Proof.
  intros HS Hf Hty. pose proof (create_schemas_in_models S HS) as HM.
  pose proof models_str_bounded as H. rewrite Forall_forall in H.
  split.
  { intros M g HMg Hg. specialize (H M HMg). rewrite Forall_forall in H. by apply H. }
  specialize (H S HM). rewrite Forall_forall in H. destruct (H f Hf Hty) as [n Hn].
  exists n. split; [done|]. split.
  - intros now p s Hp Hlen. apply validate_rejects; [done|].
    rewrite (validate_field_supplied _ _ _ _ Hp). unfold check_value. rewrite Hty.
    unfold check_str. rewrite Hn.
    destruct (Nat.leb_spec (char_length s) n); [lia|done].
  - intros now p s inst Hp Hv.
    destruct (validate_Ok_value _ _ _ _ _ (field_names_NoDup S HM) Hv Hf)
      as (v & Hl & Hfv).
    rewrite (validate_field_supplied _ _ _ _ Hp) in Hfv. unfold check_value in Hfv.
    rewrite Hty in Hfv. unfold check_str in Hfv. rewrite Hn in Hfv.
    destruct (Nat.leb_spec (char_length s) n); [|done].
    injection Hfv as <-. done.
Qed.

(** X10 at [UserCreate.phone] ([max_length=20]): a string of 24
    characters is refused, and a string of 11 characters that takes 22
    bytes is kept. *)
Lemma string_fields_are_bounded_witness :
  (∃ errors,
     validate 0 UserCreate
       (<["phone" := RStr "+1 (555) 010-0100 x12345"]> user_create_payload)
     = ValidationError errors
     ∧ mkError "phone" (string_too_long 20) ∈ errors)
  ∧ ∃ inst,
      validate 0 UserCreate (<["phone" := RStr "ééééééééééé"]> user_create_payload)
      = Ok inst
      ∧ inst !! "phone" = Some (VStr "ééééééééééé").
Proof.
  destruct (string_fields_are_bounded UserCreate
              (Field "phone" (Optional TStr) [default VNone; max_length 20]))
    as (_ & n & Hn & Hrej & Hkeep); [compute_done|compute_done|reflexivity|].
  injection Hn as <-. split.
  - apply (Hrej 0 _ "+1 (555) 010-0100 x12345"); compute_done.
  - destruct (validate 0 UserCreate
                (<["phone" := RStr "ééééééééééé"]> user_create_payload))
      as [inst|errors] eqn:Hv; [|vm_compute in Hv; discriminate Hv].
    exists inst. split; [done|].
    assert ((<["phone" := RStr "ééééééééééé"]> user_create_payload) !! "phone"
            = Some (RStr "ééééééééééé")) as Hp by compute_done.
    exact (proj1 (Hkeep 0 _ _ inst Hp Hv)).
Defined.



(** ** Null and absent fields *)

Lemma models_optional_default_none :
  Forall (fun M => Forall (fun f => f_nullable f = true ↔ f_default f = DefaultValue VNone)
                     (m_fields M)) models.
Proof. compute_done. Qed.

(** X12: in every class the [Optional] fields are exactly the fields that
    default to [None].  In the validation schemas a payload that passes
    null for such a field is treated like the payload without the field;
    a field that is not [Optional] refuses null with the error of its
    type, also when it declares a default. *)
Theorem optional_null_is_absent S f :
  S ∈ create_schemas → f ∈ m_fields S →
  (∀ M g, M ∈ models → g ∈ m_fields M →
     (f_nullable g = true ↔ f_default g = DefaultValue VNone))
  ∧ (f_nullable f = true →
     ∀ now (p : gmap string Raw),
       validate now S (<[f_name f := RNull]> p) = validate now S (delete (f_name f) p))
  ∧ (f_nullable f = false →
     ∀ now (p : gmap string Raw), p !! f_name f = Some RNull →
       ∃ errors, validate now S p = ValidationError errors
                 ∧ mkError (f_name f) (kind_error (f_type f)) ∈ errors).
Proof.
  intros HS Hf. pose proof (create_schemas_in_models S HS) as HM.
  pose proof models_optional_default_none as H. rewrite Forall_forall in H.
  split.
  { intros M g HMg Hg. specialize (H M HMg). rewrite Forall_forall in H. by apply H. }
  specialize (H S HM). rewrite Forall_forall in H. specialize (H f Hf).
  split.
  - intros Hn now p. apply validate_ext. intros g Hg.
    destruct (decide (f_name g = f_name f)) as [Heq|Hne].
    + assert (g = f) as -> by eauto using same_name_same_field, field_names_NoDup.
      unfold validate_field. rewrite lookup_insert_eq, lookup_delete_eq.
      unfold check_value, default_value. rewrite Hn.
      apply H in Hn. by rewrite Hn.
    + unfold validate_field. by rewrite lookup_insert_ne, lookup_delete_ne.
  - intros Hn now p Hp. apply validate_rejects; [done|].
    rewrite (validate_field_supplied _ _ _ _ Hp). unfold check_value. by rewrite Hn.
Qed.

(** X12 at [UserCreate.phone] (optional) and
    [ActivityCreate.is_court_date] (a [bool] with default [False]). *)
Lemma optional_null_is_absent_witness :
  validate 0 UserCreate (<["phone" := RNull]> user_create_payload)
    = validate 0 UserCreate (delete "phone" user_create_payload)
  ∧ ∃ errors,
      validate 0 ActivityCreate (<["is_court_date" := RNull]> activity_payload)
        = ValidationError errors
      ∧ mkError "is_court_date" (type_error TBool) ∈ errors.
Proof.
  split.
  - destruct (optional_null_is_absent UserCreate
                (Field "phone" (Optional TStr) [default VNone; max_length 20]))
      as (_ & Hopt & _); [compute_done|compute_done|].
    apply (Hopt eq_refl).
  - destruct (optional_null_is_absent ActivityCreate
                (Field "is_court_date" (Plain TBool) [default (VBool false)]))
      as (_ & _ & Hrej); [compute_done|compute_done|].
    apply (Hrej eq_refl). compute_done.
Defined.

(** ** Unique keys *)

Lemma models_unique_keys :
  Forall (fun M => Forall (fun f =>
            (f_unique f = true ↔ (m_name M, f_name f) ∈ unique_keys)
            ∧ (f_unique f = true →
               m_table M = true ∧ f_annotation f = Plain TStr
               ∧ f_required f = true ∧ is_Some (f_max_length f)))
          (m_fields M)) models.
Proof. compute_done. Qed.

(** X13: [unique=True] is declared on exactly five fields: [User.email],
    [Case.case_number], [Invoice.invoice_number],
    [TrustAccount.account_number] and [Account.account_number]; no
    validation schema repeats the flag.  Each of them is declared as a
    required, length-bounded [str] that is not [Optional]. *)
Theorem unique_keys_are_required_strings M f :
  M ∈ models → f ∈ m_fields M →
  (f_unique f = true ↔ (m_name M, f_name f) ∈ unique_keys)
  ∧ (f_unique f = true →
     m_table M = true ∧ f_annotation f = Plain TStr
     ∧ f_required f = true ∧ is_Some (f_max_length f)).
Proof.
  intros HM Hf. pose proof models_unique_keys as H.
  rewrite Forall_forall in H. specialize (H M HM).
  rewrite Forall_forall in H. exact (H f Hf).
Qed.

(** X13 at [Account.account_number] and at [UserCreate.email], which
    drops the flag. *)
Lemma unique_keys_are_required_strings_witness :
  f_unique (Field "account_number" (Plain TStr) [unique; max_length 20]) = true
  ∧ f_required (Field "account_number" (Plain TStr) [unique; max_length 20]) = true
  ∧ f_unique (Field "email" (Plain TStr) [max_length 255]) = false.
Proof.
  destruct (unique_keys_are_required_strings Account
              (Field "account_number" (Plain TStr) [unique; max_length 20]))
    as (Hiff & Hu); [compute_done|compute_done|].
  destruct (unique_keys_are_required_strings UserCreate
              (Field "email" (Plain TStr) [max_length 255]))
    as (Hiff' & _); [compute_done|compute_done|].
  split; [apply Hiff; compute_done|]. split; [apply Hu, Hiff; compute_done|].
  destruct (f_unique (Field "email" (Plain TStr) [max_length 255])) eqn:E; [|done].
  exfalso. assert (("UserCreate", "email") ∉ unique_keys) as Hn by compute_done.
  apply Hn. by apply Hiff'.
Defined.

(** ** Tokens of the enumerations *)

(** X14: a member and its token determine each other inside a class.
    Looking up the token of a member in the member's class gives the
    member back; two members of one class with the same token are the
    same member; and a token that looks up successfully in a class gives a
    member of that class whose token is the looked-up string, character
    for character. *)
Theorem enum_token_round_trip m :
  enum_lookup (enum_class m) (enum_value m) = Some m
  ∧ m ∈ enum_members (enum_class m)
  ∧ (∀ m', enum_class m' = enum_class m → enum_value m' = enum_value m → m' = m)
  ∧ (∀ c token, enum_lookup c token = Some m →
       c = enum_class m ∧ token = enum_value m).
Proof.
  split; [apply enum_lookup_value|].
  split; [by destruct m as [[]|[]|[]|[]|[]|[]|[]|[]|[]|[]]; compute_done|].
  split.
  - intros m' Hc Hv. pose proof (enum_lookup_value m') as H.
    rewrite Hc, Hv, enum_lookup_value in H. congruence.
  - intros c token H. apply enum_lookup_Some in H as [<- Hin]. split; [|done].
    destruct c; simpl in Hin;
      repeat (apply elem_of_cons in Hin as [->|Hin]);
      first [done|by apply elem_of_nil in Hin].
Qed.

(** X14 at the token "attorney", which two enumerations declare:
    [ResourceType] gives back its own member, and [UserRole] gives a
    different one. *)
Lemma enum_token_round_trip_witness :
  enum_lookup CResourceType "attorney" = Some (EvResourceType ResourceType.ATTORNEY)
  ∧ enum_lookup CUserRole "attorney" ≠ Some (EvResourceType ResourceType.ATTORNEY).
Proof.
  destruct (enum_token_round_trip (EvResourceType ResourceType.ATTORNEY))
    as (Hl & _ & _ & Hc).
  split; [exact Hl|]. intros H. apply Hc in H as [Hcls _]. discriminate Hcls.
Defined.
